(** * SecureViewer Pro: the content-protection layer

    A shallow embedding of the two React components that make up the
    protection layer,

    - [SecurityLayer]  (the Protection Supervisor), and
    - [DocumentViewer] (the Viewing Surface),

    together with the slice of the [Index] page that composes them
    ([<SecurityLayer><DocumentViewer .../></SecurityLayer>], with
    [onFileChange = setCurrentFileIndex]).

    React state cells become record fields, event handlers become functions
    on those records, the JSX returned by a component becomes a value of an
    inductive view type, and the browser (event dispatch, timers, the
    [navigator.mediaDevices] object, [FileReader]) becomes explicit state
    threaded through a step function. *)

From Stdlib Require Import ZArith List String Ascii Bool Lia.
Import ListNotations.

#[local] Open Scope string_scope.
#[local] Open Scope Z_scope.

(* ===================================================================== *)
(** * The host platform *)
(* ===================================================================== *)

Module Dom.

(** The two mutable flags of a DOM event that the handlers touch. *)
Record Flags := mkFlags {
  defaultPrevented : bool;
  propagationStopped : bool
}.

Definition untouched : Flags := mkFlags false false.

Definition preventDefault (fl : Flags) : Flags :=
  mkFlags true (propagationStopped fl).

Definition stopPropagation (fl : Flags) : Flags :=
  mkFlags (defaultPrevented fl) true.

(** The part of a [KeyboardEvent] the handlers read. *)
Record KeyboardEvent := mkKey {
  key : string;
  ctrlKey : bool;
  shiftKey : bool
}.

(** Event types for which one of the two components registers a
    listener. *)
Inductive EventType :=
| Copy | Cut | Paste
| DragStart | Drag | DragEnter | DragOver | Drop
| BeforePrint
| KeyDown
| ContextMenu.

Definition EventType_eqb (a b : EventType) : bool :=
  match a, b with
  | Copy, Copy | Cut, Cut | Paste, Paste
  | DragStart, DragStart | Drag, Drag | DragEnter, DragEnter
  | DragOver, DragOver | Drop, Drop
  | BeforePrint, BeforePrint | KeyDown, KeyDown
  | ContextMenu, ContextMenu => true
  | _, _ => false
  end.

(** Where a listener is attached. *)
Inductive Target := Document | Window.

Definition Target_eqb (a b : Target) : bool :=
  match a, b with
  | Document, Document | Window, Window => true
  | _, _ => false
  end.

(** [String.prototype.toLowerCase] on the ASCII range, which covers every
    key name the handlers compare against. *)
Definition lower_ascii (c : ascii) : ascii :=
  let n := nat_of_ascii c in
  if (Nat.leb 65 n && Nat.leb n 90)%bool then ascii_of_nat (n + 32) else c.

Fixpoint toLowerCase (s : string) : string :=
  match s with
  | EmptyString => EmptyString
  | String c s' => String (lower_ascii c) (toLowerCase s')
  end.

(** [Array.prototype.includes] on an array of strings. *)
Definition includes (l : list string) (x : string) : bool :=
  existsb (String.eqb x) l.

(** [String.prototype.startsWith]. *)
Definition startsWith (s p : string) : bool := String.prefix p s.

(** [navigator.mediaDevices.getDisplayMedia]: either the browser's own
    function or the replacement installed by [SecurityLayer]. *)
Inductive DisplayMediaFn := NativeGetDisplayMedia | BlockingStub.

(** [navigator.mediaDevices]; [getDisplayMedia] may be missing. *)
Record MediaDevices := mkMediaDevices {
  getDisplayMedia : option DisplayMediaFn
}.

(** [navigator]; [mediaDevices] may be missing (insecure context, old
    browser). *)
Record Navigator := mkNavigator {
  mediaDevices : option MediaDevices
}.

(** What a caller of [getDisplayMedia] gets back. *)
Inductive CaptureResult :=
| Rejected (message : string)   (* [Promise.reject(new Error(message))] *)
| NativePrompt                  (* the browser's own capture flow runs *)
| NotAFunction.                 (* the property does not exist *)

End Dom.

Import Dom.

(* ===================================================================== *)
(** * SecurityLayer (the Protection Supervisor) *)
(* ===================================================================== *)

Module SecurityLayer.

(** The two [useState] cells of the component. *)
Record State := mkState {
  devToolsOpen : bool;
  screenCaptureAttempt : bool
}.

(** [useState(false)] twice. *)
Definition initial : State := mkState false false.

Definition setDevToolsOpen (b : bool) (s : State) : State :=
  mkState b (screenCaptureAttempt s).

Definition setScreenCaptureAttempt (b : bool) (s : State) : State :=
  mkState (devToolsOpen s) b.

(** The window geometry read by the poll. *)
Record WindowSize := mkSize {
  outerWidth : Z;
  innerWidth : Z;
  outerHeight : Z;
  innerHeight : Z
}.

Definition widthThreshold (w : WindowSize) : bool :=
  160 <? outerWidth w - innerWidth w.

Definition heightThreshold (w : WindowSize) : bool :=
  160 <? outerHeight w - innerHeight w.

(** [detectDevTools]: the console output of the first branch has no
    effect on the component state and is left out. *)
Definition detectDevTools (w : WindowSize) (s : State) : State :=
  if (widthThreshold w || heightThreshold w)%bool
  then setDevToolsOpen true s
  else setDevToolsOpen false s.

(** Callbacks handed to [setInterval] by the first effect, with their
    period in milliseconds. *)
Inductive TimerCallback := DetectDevTools | ConsoleCleaner.

Definition timers : list (TimerCallback * Z) :=
  [ (DetectDevTools, 500); (ConsoleCleaner, 1000) ].

(** The condition of [handleKeyDown]; the comparisons are [===] on the
    key name, hence case sensitive. *)
Definition isDevShortcut (e : KeyboardEvent) : bool :=
  (String.eqb (key e) "F12"
   || (ctrlKey e && shiftKey e && String.eqb (key e) "I")
   || (ctrlKey e && shiftKey e && String.eqb (key e) "C")
   || (ctrlKey e && String.eqb (key e) "U"))%bool.

(** [handleKeyDown]. *)
Definition handleKeyDown (e : KeyboardEvent) (fs : Flags * State)
  : Flags * State :=
  if isDevShortcut e
  then (preventDefault (fst fs), setDevToolsOpen true (snd fs))
  else fs.

(** [detectScreenCapture]: patches [navigator.mediaDevices] when both the
    object and the function are present.  The result is the navigator
    afterwards and the lines written to the console.  Assigning the
    property of an ordinary object does not throw, so the [catch] branch,
    the only place that writes to the console, is not reached; nothing is
    thrown to the caller either way. *)
Definition detectScreenCapture (n : Navigator) : Navigator * list string :=
  match mediaDevices n with
  | Some md =>
      match getDisplayMedia md with
      | Some _ =>
          (mkNavigator (Some (mkMediaDevices (Some BlockingStub))), [])
      | None => (n, [])
      end
  | None => (n, [])
  end.

(** Calling [navigator.mediaDevices.getDisplayMedia()] from anywhere in
    the page while the layer is mounted. *)
Definition callGetDisplayMedia (n : Navigator) (s : State)
  : CaptureResult * State :=
  match mediaDevices n with
  | Some md =>
      match getDisplayMedia md with
      | Some BlockingStub =>
          (Rejected "Screen capture blocked by SecureViewer Pro",
           setScreenCaptureAttempt true s)
      | Some NativeGetDisplayMedia => (NativePrompt, s)
      | None => (NotAFunction, s)
      end
  | None => (NotAFunction, s)
  end.

(** [blockClipboard]. *)
Definition blockClipboard (fl : Flags) : Flags :=
  stopPropagation (preventDefault fl).

(** [blockDragDrop]. *)
Definition blockDragDrop (fl : Flags) : Flags :=
  stopPropagation (preventDefault fl).

(** [blockPrint]: the body is [return false] and nothing else; the
    return value of a listener added with [addEventListener] is
    ignored. *)
Definition blockPrint (fl : Flags) : Flags := fl.

(** The handlers of the second effect, which do not touch the state. *)
Inductive Blocker := BlockClipboard | BlockDragDrop | BlockPrint.

Definition runBlocker (b : Blocker) : Flags -> Flags :=
  match b with
  | BlockClipboard => blockClipboard
  | BlockDragDrop => blockDragDrop
  | BlockPrint => blockPrint
  end.

(** The [addEventListener] calls of the second effect, in source order:
    target, event type, handler.  None of them passes the capture
    flag. *)
Definition blockers : list (Target * EventType * Blocker) :=
  [ (Document, Copy, BlockClipboard);
    (Document, Cut, BlockClipboard);
    (Document, Paste, BlockClipboard);
    (Document, DragStart, BlockDragDrop);
    (Document, Drag, BlockDragDrop);
    (Document, DragEnter, BlockDragDrop);
    (Document, DragOver, BlockDragDrop);
    (Document, Drop, BlockDragDrop);
    (Window, BeforePrint, BlockPrint) ].

(** [onClick] of the Continue button. *)
Definition onContinue (s : State) : State :=
  setScreenCaptureAttempt false s.

(** The buttons a view offers. *)
Inductive Button := Continue.

(** What the component returns. *)
Inductive View (C : Type) :=
| AccessDenied                 (* "Developer tools detected" *)
| ScreenCaptureBlocked         (* "Screen Capture Blocked" + Continue *)
| Children (c : C).            (* [<>{children}</>] *)

Arguments AccessDenied {C}.
Arguments ScreenCaptureBlocked {C}.
Arguments Children {C} c.

(** The [return] cascade at the end of the component. *)
Definition render {C : Type} (s : State) (children : C) : View C :=
  if devToolsOpen s then AccessDenied
  else if screenCaptureAttempt s then ScreenCaptureBlocked
  else Children children.

(** The buttons present in each of the three trees. *)
Definition buttons {C : Type} (v : View C) : list Button :=
  match v with
  | AccessDenied => []
  | ScreenCaptureBlocked => [Continue]
  | Children _ => []
  end.

(** The layer shows one of its own full-screen trees. *)
Definition obstructs (s : State) : bool :=
  (devToolsOpen s || screenCaptureAttempt s)%bool.

End SecurityLayer.

(* ===================================================================== *)
(** * DocumentViewer (the Viewing Surface) *)
(* ===================================================================== *)

Module DocumentViewer.

(** The browser [File] behind an upload, identified by a handle. *)
Definition File := nat.

(** The string [FileReader.readAsDataURL] produces for a file.  It is
    kept symbolic; it always starts with ["data:"], so it is never the
    empty string and [!pdfData] is false for it. *)
Inductive DataURL := DataURLOf (f : File).

(** [interface UploadedFile]; [size] and [progress] are not read by the
    viewer. *)
Record UploadedFile := mkFile {
  id : string;
  file : File;
  name : string;
  type : string;
  url : string
}.

(** The [useState] cells of the component that change after mount
    ([sessionId] and [timestamp] have no setter). *)
Record State := mkState {
  zoom : Z;
  isBlurred : bool;
  pdfData : option DataURL
}.

(** [useState(100)], [useState(false)], [useState(null)]. *)
Definition initial : State := mkState 100 false None.

Definition setZoom (f : Z -> Z) (s : State) : State :=
  mkState (f (zoom s)) (isBlurred s) (pdfData s).

Definition setIsBlurred (b : bool) (s : State) : State :=
  mkState (zoom s) b (pdfData s).

Definition setPdfData (d : option DataURL) (s : State) : State :=
  mkState (zoom s) (isBlurred s) d.

(** [files[currentIndex]]; [undefined] outside the array. *)
Definition currentFile (files : list UploadedFile) (currentIndex : Z)
  : option UploadedFile :=
  if currentIndex <? 0 then None
  else nth_error files (Z.to_nat currentIndex).

(** [handleZoomIn] and [handleZoomOut]. *)
Definition handleZoomIn (s : State) : State :=
  setZoom (fun prev => Z.min (prev + 25) 200) s.

Definition handleZoomOut (s : State) : State :=
  setZoom (fun prev => Z.max (prev - 25) 50) s.

(** [nextFile] and [prevFile]; the result is the argument passed to
    [onFileChange], if it is called. *)
Definition nextFile (files : list UploadedFile) (currentIndex : Z)
  : option Z :=
  if currentIndex <? Z.of_nat (List.length files) - 1
  then Some (currentIndex + 1)
  else None.

Definition prevFile (currentIndex : Z) : option Z :=
  if 0 <? currentIndex then Some (currentIndex - 1) else None.

(** The condition of the viewer's [handleKeyDown].  In JavaScript [&&]
    binds tighter than [||], so the first line is one disjunct. *)
Definition isBlockedShortcut (e : KeyboardEvent) : bool :=
  ((ctrlKey e
      && includes ["c"; "v"; "a"; "s"; "p"; "u"; "r"; "z"; "y"]
                  (toLowerCase (key e)))
   || String.eqb (key e) "F12"
   || (ctrlKey e && shiftKey e
         && includes ["i"; "c"; "s"] (toLowerCase (key e)))
   || String.eqb (key e) "F5"
   || String.eqb (key e) "PrintScreen")%bool.

(** The viewer's [handleKeyDown]. *)
Definition handleKeyDown (e : KeyboardEvent) (fl : Flags) : Flags :=
  if isBlockedShortcut e
  then stopPropagation (preventDefault fl)
  else fl.

(** [handleContextMenu]. *)
Definition handleContextMenu (fl : Flags) : Flags := preventDefault fl.

(** [handleVisibilityChange], [handleBlur], [handleFocus]. *)
Definition handleVisibilityChange (hidden : bool) (s : State) : State :=
  setIsBlurred hidden s.

Definition handleBlur (s : State) : State := setIsBlurred true s.

Definition handleFocus (s : State) : State := setIsBlurred false s.

(** [reader.onload]. *)
Definition onload (result : DataURL) (s : State) : State :=
  setPdfData (Some result) s.

(** What [renderContent] returns. *)
Inductive Content :=
| Nothing                                           (* [null] *)
| Image (src alt : string) (scale : Z)              (* [<img>] *)
| LoadingPdf                                        (* "Loading PDF..." *)
| PdfFrame (src : DataURL) (title : string) (scale : Z) (* [<iframe>] *)
| TextPlaceholder (scale : Z)             (* "Loading text content..." *)
| PreviewNotAvailable (fname ftype : string).

(** [renderContent]. *)
Definition renderContent (files : list UploadedFile) (currentIndex : Z)
    (s : State) : Content :=
  match currentFile files currentIndex with
  | None => Nothing
  | Some f =>
      if startsWith (type f) "image/" then Image (url f) (name f) (zoom s)
      else if String.eqb (type f) "application/pdf" then
        match pdfData s with
        | None => LoadingPdf
        | Some d => PdfFrame d (name f) (zoom s)
        end
      else if startsWith (type f) "text/" then TextPlaceholder (zoom s)
      else PreviewNotAvailable (name f) (type f)
  end.

(** The content area of the tree the component returns; the watermark
    and the two bars around it are the same in both cases. *)
Inductive View :=
| ContentProtected          (* "Content is hidden when window loses focus" *)
| Shown (c : Content).

(** The conditional in the content area. *)
Definition render (files : list UploadedFile) (currentIndex : Z)
    (s : State) : View :=
  if isBlurred s then ContentProtected
  else Shown (renderContent files currentIndex s).

End DocumentViewer.

(* ===================================================================== *)
(** * A viewing session: the layer wrapped around the viewer *)
(* ===================================================================== *)

Module Session.

Import DocumentViewer.

(** Everything that changes while [Index] shows
    [<SecurityLayer><DocumentViewer/></SecurityLayer>].

    [viewer] is [None] while the layer returns one of its own trees:
    React then unmounts the viewer and its state cells are gone.
    [reads] lists the files of the [FileReader]s started by the mounted
    viewer that have not fired [onload] or [onerror] yet. *)
Record World := mkWorld {
  navigator : Navigator;
  files : list UploadedFile;
  currentFileIndex : Z;
  layer : SecurityLayer.State;
  viewer : option State;
  reads : list File
}.

Definition withLayer (l : SecurityLayer.State) (w : World) : World :=
  mkWorld (navigator w) (files w) (currentFileIndex w) l (viewer w)
          (reads w).

Definition withViewer (v : option State) (w : World) : World :=
  mkWorld (navigator w) (files w) (currentFileIndex w) (layer w) v
          (reads w).

Definition withReads (r : list File) (w : World) : World :=
  mkWorld (navigator w) (files w) (currentFileIndex w) (layer w)
          (viewer w) r.

Definition withIndex (i : Z) (w : World) : World :=
  mkWorld (navigator w) (files w) i (layer w) (viewer w) (reads w).

(** Apply a viewer handler when the viewer is mounted; its listeners and
    buttons do not exist otherwise. *)
Definition onViewer (h : State -> State) (w : World) : World :=
  match viewer w with
  | Some v => withViewer (Some (h v)) w
  | None => w
  end.

(** The effect [useEffect(..., [currentFile])] of the viewer: a PDF
    starts a read, whose [onload] later calls [setPdfData]; the [else]
    branch clears [pdfData] at once. *)
Definition pdfEffect (w : World) : World :=
  match currentFile (files w) (currentFileIndex w) with
  | Some f =>
      if String.eqb (type f) "application/pdf"
      then withReads (reads w ++ [file f]) w
      else onViewer (setPdfData None) w
  | None => onViewer (setPdfData None) w
  end.

(** Mounting the viewer: fresh state cells, then its effects. *)
Definition mountViewer (w : World) : World :=
  pdfEffect (withReads [] (withViewer (Some initial) w)).

(** Unmounting it: the state cells are dropped; an [onload] arriving
    later calls the setter of a component that no longer exists, which
    React ignores, so the reads are dropped with them. *)
Definition unmountViewer (w : World) : World :=
  withReads [] (withViewer None w).

(** React re-rendering [SecurityLayer] after one of its cells changed. *)
Definition reconcile (w : World) : World :=
  if SecurityLayer.obstructs (layer w) then unmountViewer w
  else match viewer w with
       | Some _ => w
       | None => mountViewer w
       end.

(** [currentFile] is a different object after the index moved from [i]
    to [j]: every position of [files] holds its own object, and
    [undefined] equals [undefined]. *)
Definition currentFileChanged (fs : list UploadedFile) (i j : Z) : bool :=
  match currentFile fs i, currentFile fs j with
  | None, None => false
  | _, _ => negb (i =? j)
  end.

(** [onFileChange = setCurrentFileIndex], followed by the re-render of
    the viewer with the new prop. *)
Definition onFileChange (j : Z) (w : World) : World :=
  let w' := withIndex j w in
  if currentFileChanged (files w) (currentFileIndex w) j
  then pdfEffect w'
  else w'.

(** Dispatch of a [keydown] whose target is an element of the page.
    Both components listen on [document]: the viewer with the capture
    flag ([addEventListener('keydown', handleKeyDown, true)]), the layer
    without it.  The capturing listeners of a node run before its
    bubbling ones, and once a listener has called [stopPropagation] no
    later node or phase is visited. *)
Definition dispatchKeyDown (e : KeyboardEvent) (w : World)
  : Flags * World :=
  let captured :=
    match viewer w with
    | Some _ => DocumentViewer.handleKeyDown e untouched
    | None => untouched
    end in
  if propagationStopped captured then (captured, w)
  else
    let '(fl, l) := SecurityLayer.handleKeyDown e (captured, layer w) in
    (fl, withLayer l w).

(** The listeners of the layer's second effect that an event of type
    [ty] visits on target [t]. *)
Definition blockersAt (t : Target) (ty : EventType)
  : list SecurityLayer.Blocker :=
  map snd
    (filter (fun l => Target_eqb (fst (fst l)) t
                      && EventType_eqb (snd (fst l)) ty)%bool
            SecurityLayer.blockers).

Definition runBlockers (bs : list SecurityLayer.Blocker) (fl : Flags)
  : Flags :=
  fold_left (fun acc b => SecurityLayer.runBlocker b acc) bs fl.

(** [beforeprint] is fired at the window and never visits [document];
    the clipboard and drag events are fired at an element and bubble
    through [document] to the window. *)
Definition visitsDocument (ty : EventType) : bool :=
  match ty with
  | BeforePrint => false
  | _ => true
  end.

(** Dispatch of one of the events handled by the second effect, in
    bubbling order. *)
Definition dispatch (ty : EventType) : Flags :=
  let atDocument :=
    if visitsDocument ty
    then runBlockers (blockersAt Document ty) untouched
    else untouched in
  if propagationStopped atDocument then atDocument
  else runBlockers (blockersAt Window ty) atDocument.

(** What can happen during a session. *)
Inductive Action :=
| Poll (size : SecurityLayer.WindowSize)  (* the 500ms timer fires *)
| PressKey (e : KeyboardEvent)
| RequestCapture            (* some script calls [getDisplayMedia()] *)
| ClickContinue
| WindowBlur
| WindowFocus
| VisibilityChange (hidden : bool)
| ClickZoomIn
| ClickZoomOut
| ClickNext
| ClickPrev
| ReadLoaded (k : nat)      (* [onload] of the k-th pending read *)
| ReadFailed (k : nat).     (* [onerror] of the k-th pending read *)

(** Drop the k-th element. *)
Definition dropNth {A : Type} (k : nat) (l : list A) : list A :=
  firstn k l ++ skipn (S k) l.

Definition hasContinue (w : World) : bool :=
  match SecurityLayer.buttons (SecurityLayer.render (layer w) tt) with
  | [] => false
  | _ :: _ => true
  end.

(** One event-loop turn. *)
Definition step (w : World) (a : Action) : World :=
  match a with
  | Poll size =>
      reconcile (withLayer (SecurityLayer.detectDevTools size (layer w)) w)
  | PressKey e => reconcile (snd (dispatchKeyDown e w))
  | RequestCapture =>
      reconcile
        (withLayer
           (snd (SecurityLayer.callGetDisplayMedia (navigator w) (layer w)))
           w)
  | ClickContinue =>
      if hasContinue w
      then reconcile (withLayer (SecurityLayer.onContinue (layer w)) w)
      else w
  | WindowBlur => onViewer handleBlur w
  | WindowFocus => onViewer handleFocus w
  | VisibilityChange hidden => onViewer (handleVisibilityChange hidden) w
  | ClickZoomIn => onViewer handleZoomIn w
  | ClickZoomOut => onViewer handleZoomOut w
  | ClickNext =>
      match viewer w, nextFile (files w) (currentFileIndex w) with
      | Some _, Some j => onFileChange j w
      | _, _ => w
      end
  | ClickPrev =>
      match viewer w, prevFile (currentFileIndex w) with
      | Some _, Some j => onFileChange j w
      | _, _ => w
      end
  | ReadLoaded k =>
      match nth_error (reads w) k with
      | Some f =>
          withReads (dropNth k (reads w))
                    (onViewer (onload (DataURLOf f)) w)
      | None => w
      end
  | ReadFailed k => withReads (dropNth k (reads w)) w
  end.

Definition run (w : World) (acts : list Action) : World :=
  fold_left step acts w.

(** The session right after [Index] has mounted both components: the
    layer's effects have patched the navigator, the viewer's effect has
    started the first conversion. *)
Definition start (n : Navigator) (fs : list UploadedFile) (i : Z) : World :=
  mountViewer
    (mkWorld (fst (SecurityLayer.detectScreenCapture n)) fs i
             SecurityLayer.initial None []).

(** States a session can be in. *)
Inductive reachable : World -> Prop :=
| reachable_start n fs i : reachable (start n fs i)
| reachable_step w a : reachable w -> reachable (step w a).

(** The mounted viewer's state; a viewer about to be mounted starts
    from [initial]. *)
Definition viewerState (w : World) : State :=
  match viewer w with
  | Some v => v
  | None => initial
  end.

(** The focus-loss flag of the session. *)
Definition contentHidden (w : World) : bool :=
  match viewer w with
  | Some v => isBlurred v
  | None => false
  end.

(** What is on screen. *)
Definition render (w : World) : SecurityLayer.View View :=
  SecurityLayer.render (layer w)
    (DocumentViewer.render (files w) (currentFileIndex w) (viewerState w)).

(** The screen shows one of the three obstruction trees. *)
Definition showsObstruction (v : SecurityLayer.View View) : bool :=
  match v with
  | SecurityLayer.AccessDenied => true
  | SecurityLayer.ScreenCaptureBlocked => true
  | SecurityLayer.Children ContentProtected => true
  | SecurityLayer.Children (Shown _) => false
  end.

(** The screen shows the result of [renderContent]. *)
Definition showsContent (v : SecurityLayer.View View) : bool :=
  match v with
  | SecurityLayer.Children (Shown _) => true
  | _ => false
  end.

(** The embedded frame, when there is one on screen, shows the data URL
    of the current file. *)
Definition frameShowsCurrent (w : World) : Prop :=
  forall d t z,
    render w = SecurityLayer.Children (Shown (PdfFrame d t z)) ->
    exists f,
      currentFile (files w) (currentFileIndex w) = Some f
      /\ d = DataURLOf (file f).

End Session.

(* ===================================================================== *)
(** * Sample data *)
(* ===================================================================== *)

Module Sample.

Import DocumentViewer Session.

(** A browser with the capture API, one without [getDisplayMedia] and one
    without [navigator.mediaDevices]. *)
Definition chrome : Navigator :=
  mkNavigator (Some (mkMediaDevices (Some NativeGetDisplayMedia))).

Definition noGetDisplayMedia : Navigator :=
  mkNavigator (Some (mkMediaDevices None)).

Definition noMediaDevices : Navigator := mkNavigator None.

(** The three documents of the scenario in the specification, and a second
    PDF. *)
Definition a_png : UploadedFile :=
  mkFile "f0" 0%nat "a.png" "image/png" "blob:a".

Definition b_pdf : UploadedFile :=
  mkFile "f1" 1%nat "b.pdf" "application/pdf" "blob:b".

Definition c_bin : UploadedFile :=
  mkFile "f2" 2%nat "c.bin" "application/octet-stream" "blob:c".

Definition d_pdf : UploadedFile :=
  mkFile "f3" 3%nat "d.pdf" "application/pdf" "blob:d".

Definition threeDocs : list UploadedFile := [a_png; b_pdf; c_bin].

Definition twoPdfs : list UploadedFile := [b_pdf; d_pdf].

(** Window geometries: a docked inspection panel 400px wide, and an
    ordinary window whose chrome takes 16 by 88 pixels. *)
Definition docked : SecurityLayer.WindowSize :=
  SecurityLayer.mkSize 1280 880 800 712.

Definition plain : SecurityLayer.WindowSize :=
  SecurityLayer.mkSize 1280 1264 800 712.

(** Key presses as the browser reports them. *)
Definition key_F12 : KeyboardEvent := mkKey "F12" false false.
Definition key_F5 : KeyboardEvent := mkKey "F5" false false.
Definition key_ctrl_shift_C : KeyboardEvent := mkKey "C" true true.
Definition key_ctrl_u : KeyboardEvent := mkKey "u" true false.

(** A session on the three documents, and the same after the window lost
    focus. *)
Definition viewing : World := start chrome threeDocs 0.

Definition unfocused : World := step viewing WindowBlur.


(** A session on two PDFs in which the user moves to the second one
    before the first conversion has finished, and the first conversion
    then finishes. *)
Definition overtaken : World :=
  run (start chrome twoPdfs 0) [ClickNext; ReadLoaded 0%nat].

End Sample.

(* ===================================================================== *)
(** * Vocabulary of the properties *)
(* ===================================================================== *)

Import DocumentViewer Session.

(** The viewer is mounted exactly when the layer lets its children
    through. *)
Definition mountedWhenClear (w : World) : Prop :=
  match viewer w with
  | Some _ => SecurityLayer.obstructs (layer w) = false
  | None => SecurityLayer.obstructs (layer w) = true
  end.

(** The navigator offers [navigator.mediaDevices.getDisplayMedia]. *)
Definition hasCaptureAPI (n : Navigator) : bool :=
  match mediaDevices n with
  | Some md =>
      match getDisplayMedia md with
      | Some _ => true
      | None => false
      end
  | None => false
  end.

(** The two zoom buttons. *)
Inductive ZoomOp := ZoomIn | ZoomOut.

Definition zoomBy (op : ZoomOp) : State -> State :=
  match op with
  | ZoomIn => handleZoomIn
  | ZoomOut => handleZoomOut
  end.

(** A sequence of clicks on the zoom buttons, oldest first. *)
Definition zoomAll (ops : list ZoomOp) (s : State) : State :=
  fold_left (fun acc op => zoomBy op acc) ops s.

(** Within [50, 200] and a whole number of 25-steps away from 100. *)
Definition zoomOk (z : Z) : Prop := 50 <= z <= 200 /\ (25 | z - 100).

(** The same for the viewer of a session, if one is mounted. *)
Definition zoomOkIn (w : World) : Prop :=
  match viewer w with
  | Some v => zoomOk (zoom v)
  | None => True
  end.

(** The clipboard and drag events of the second effect. *)
Definition clipboardOrDrag (ty : EventType) : bool :=
  match ty with
  | Copy | Cut | Paste | DragStart | Drag | DragEnter | DragOver | Drop =>
      true
  | _ => false
  end.


(* ===================================================================== *)
(** * The viewer's toolbar *)
(* ===================================================================== *)

Module Toolbar.

(** The [disabled] attributes of the two zoom buttons. *)
Definition zoomOutDisabled (s : State) : bool := zoom s <=? 50.

Definition zoomInDisabled (s : State) : bool := 200 <=? zoom s.

(** The navigation buttons are rendered when [files.length > 1]. *)
Definition navShown (fs : list UploadedFile) : bool :=
  1 <? Z.of_nat (List.length fs).

(** Their [disabled] attributes. *)
Definition prevDisabled (currentIndex : Z) : bool := currentIndex =? 0.

Definition nextDisabled (fs : list UploadedFile) (currentIndex : Z) : bool :=
  currentIndex =? Z.of_nat (List.length fs) - 1.

End Toolbar.

(* ===================================================================== *)
(** * Kinds of session events *)
(* ===================================================================== *)

(** Clicks on the navigation buttons. *)
Definition isNavigation (a : Action) : bool :=
  match a with
  | ClickNext | ClickPrev => true
  | _ => false
  end.

(** Clicks on the zoom buttons. *)
Definition isZoom (a : Action) : bool :=
  match a with
  | ClickZoomIn | ClickZoomOut => true
  | _ => false
  end.

(** Events that neither move to another document nor make the layer
    obstruct: everything but navigation, a capture request and a poll
    that sees the size excess. *)
Definition staysOnDocument (a : Action) : bool :=
  match a with
  | ClickNext | ClickPrev | RequestCapture => false
  | Poll size =>
      negb (SecurityLayer.widthThreshold size
            || SecurityLayer.heightThreshold size)
  | _ => true
  end.

(* ===================================================================== *)
(** * Setup and cleanup of the effects *)
(* ===================================================================== *)

Module Lifecycle.

(** The function objects the effects hand to the browser. *)
Inductive Callback :=
| LayerHandleKeyDown
| BlockerFn (b : SecurityLayer.Blocker)
| HandleContextMenu
| ViewerHandleKeyDown
| HandleVisibilityChange
| HandleBlur
| HandleFocus.

(** A registered listener: target, event name, function, the mount that
    created the function (every run of an effect creates new closures),
    and the capture flag. *)
Record Listener := mkListener {
  on : Target;
  event : string;
  callback : Callback;
  owner : nat;
  useCapture : bool
}.

Definition Listener_eq_dec (a b : Listener) : {a = b} + {a <> b}.
Proof.
  decide equality;
    try apply Bool.bool_dec; try apply Nat.eq_dec; try apply string_dec;
    decide equality; decide equality.
Defined.

(** [addEventListener]: a listener already registered with the same
    event, function and capture flag is not added again. *)
Definition addEventListener (l : Listener) (ls : list Listener)
  : list Listener :=
  if in_dec Listener_eq_dec l ls then ls else ls ++ [l].

(** [removeEventListener]: removes the matching listener, if any. *)
Fixpoint removeEventListener (l : Listener) (ls : list Listener)
  : list Listener :=
  match ls with
  | [] => []
  | x :: rest =>
      if Listener_eq_dec l x then rest else x :: removeEventListener l rest
  end.

(** A running [setInterval] timer: its id, callback and period. *)
Record Interval := mkInterval {
  timerId : nat;
  timerCallback : SecurityLayer.TimerCallback;
  period : Z
}.

(** The part of the page the effects of the two components act on. *)
Record Page := mkPage {
  listeners : list Listener;
  intervals : list Interval;
  nextTimerId : nat;
  navigator : Navigator;
  observers : list nat;     (* mounts whose MutationObserver is connected *)
  headStyles : list nat     (* mounts whose [<style>] is in [<head>] *)
}.



Definition withListeners (ls : list Listener) (p : Page) : Page :=
  mkPage ls (intervals p) (nextTimerId p) (navigator p) (observers p)
         (headStyles p).

Definition add (l : Listener) (p : Page) : Page :=
  withListeners (addEventListener l (listeners p)) p.

Definition remove (l : Listener) (p : Page) : Page :=
  withListeners (removeEventListener l (listeners p)) p.






(** The listeners of the viewer's effects, in source order; only
    [keydown] passes [true] as third argument. *)
Definition viewerListeners (k : nat) : list Listener :=
  [ mkListener Document "contextmenu" HandleContextMenu k false;
    mkListener Document "keydown" ViewerHandleKeyDown k true;
    mkListener Document "visibilitychange" HandleVisibilityChange k false;
    mkListener Window "blur" HandleBlur k false;
    mkListener Window "focus" HandleFocus k false ].

(** The listeners the viewer's cleanups remove, in source order. *)
Definition viewerRemoved (k : nat) : list Listener :=
  [ mkListener Document "contextmenu" HandleContextMenu k false;
    mkListener Document "keydown" ViewerHandleKeyDown k true;
    mkListener Document "visibilitychange" HandleVisibilityChange k false;
    mkListener Window "blur" HandleBlur k false;
    mkListener Window "focus" HandleFocus k false ].

(** The effects of [DocumentViewer] that touch the page: five listeners
    and the [<style>] element appended to [<head>]. *)
Definition viewerSetup (k : nat) (p : Page) : Page :=
  let p := fold_left (fun q l => add l q) (viewerListeners k) p in
  mkPage (listeners p) (intervals p) (nextTimerId p) (navigator p)
         (observers p) (headStyles p ++ [k]).

Definition viewerCleanup (k : nat) (p : Page) : Page :=
  let p := fold_left (fun q l => remove l q) (viewerRemoved k) p in
  mkPage (listeners p) (intervals p) (nextTimerId p) (navigator p)
         (observers p) (filter (fun o => negb (Nat.eqb o k)) (headStyles p)).

(** Nothing on the page stems from mount [k] yet, and timer ids are
    handed out in increasing order. *)
Definition fresh (k : nat) (p : Page) : Prop :=
  (forall l, In l (listeners p) -> owner l <> k)
  /\ (forall t, In t (intervals p) -> (timerId t < nextTimerId p)%nat)
  /\ ~ In k (observers p)
  /\ ~ In k (headStyles p).

(** Registering and removing a list of listeners, first to last. *)
Definition addAll (xs ls : list Listener) : list Listener :=
  fold_left (fun q l => addEventListener l q) xs ls.

Definition removeAll (xs ls : list Listener) : list Listener :=
  fold_left (fun q l => removeEventListener l q) xs ls.


End Lifecycle.

(* ===================================================================== *)
(** * Index: the list of uploaded files *)
(* ===================================================================== *)

Module Index.

(** [interface UploadedFile], with all its fields. *)
Record UploadedFile := mkUploaded {
  id : string;
  file : DocumentViewer.File;
  name : string;
  size : string;
  type : string;
  url : string;
  progress : Z
}.

(** The prop the page hands to the viewer is the same array. *)
Definition toViewer (f : UploadedFile) : DocumentViewer.UploadedFile :=
  DocumentViewer.mkFile (id f) (file f) (name f) (type f) (url f).

(** [{ ...f, progress }]. *)
Definition withProgress (p : Z) (f : UploadedFile) : UploadedFile :=
  mkUploaded (id f) (file f) (name f) (size f) (type f) (url f) p.

(** The updater [prev => [...prev.filter(f => f.id !== file.id), file]]. *)
Definition addFile (new : UploadedFile) (prev : list UploadedFile)
  : list UploadedFile :=
  filter (fun f => negb (String.eqb (id f) (id new))) prev ++ [new].

(** The updater
    [prev => prev.map(f => f.id === file.id ? { ...f, progress } : f)]. *)
Definition setProgress (fid : string) (p : Z) (prev : list UploadedFile)
  : list UploadedFile :=
  map (fun f => if String.eqb (id f) fid then withProgress p f else f) prev.

(** The updater of [removeFile]: the URL it revokes, if the file is
    found, and the new list. *)
Definition removeFile (fid : string) (prev : list UploadedFile)
  : option string * list UploadedFile :=
  (option_map url (find (fun f => String.eqb (id f) fid) prev),
   filter (fun f => negb (String.eqb (id f) fid)) prev).

(** [for (let progress = 0; progress <= 100; progress += 10)] around the
    progress updater; [fuel] bounds the number of iterations. *)
Fixpoint progressLoop (fuel : nat) (fid : string) (p : Z)
    (st : list UploadedFile) : list UploadedFile :=
  match fuel with
  | O => st
  | S fuel' =>
      if p <=? 100
      then progressLoop fuel' fid (p + 10) (setProgress fid p st)
      else st
  end.

(** The simulated upload of one file when nothing else touches the list
    in between: it is added, then its progress runs from 0 to 100. *)
Definition upload (fuel : nat) (new : UploadedFile)
    (prev : list UploadedFile) : list UploadedFile :=
  progressLoop fuel (id new) 0 (addFile new prev).

(** The [useState] cells of the page that decide what the viewer is
    given ([dragActive] and [darkMode] do not). *)
Record State := mkState {
  files : list UploadedFile;
  isProcessing : bool;
  isFullscreen : bool;
  currentFileIndex : Z
}.

(** [useState([])], [useState(false)] twice, [useState(0)]. *)
Definition initial : State := mkState [] false false 0.

(** [removeFile], applied to the page. *)
Definition onRemove (fid : string) (s : State) : State :=
  mkState (snd (removeFile fid (files s))) (isProcessing s) (isFullscreen s)
          (currentFileIndex s).

(** [processFiles]: with no files it only shows a toast; otherwise it
    sets [isProcessing] and arms the 1500ms timeout. *)
Definition processFiles (s : State) : State :=
  if Nat.eqb (List.length (files s)) 0 then s
  else mkState (files s) true (isFullscreen s) (currentFileIndex s).

(** The callback of that timeout. *)
Definition processDone (s : State) : State :=
  mkState (files s) false true (currentFileIndex s).

(** [onClose] and [onFileChange] as passed to the viewer. *)
Definition onClose (s : State) : State :=
  mkState (files s) (isProcessing s) false (currentFileIndex s).

Definition onFileChange (i : Z) (s : State) : State :=
  mkState (files s) (isProcessing s) (isFullscreen s) i.

(** The session the page starts when it renders the viewer. *)
Definition openViewer (n : Navigator) (s : State) : Session.World :=
  Session.start n (map toViewer (files s)) (currentFileIndex s).

End Index.

(* ===================================================================== *)
(** * Invariants of the conversion *)
(* ===================================================================== *)

(** Every pending read and the converted data, if any, belong to the
    current document. *)
Definition conversionsCurrent (w : World) : Prop :=
  (forall r, In r (reads w) ->
     exists f, currentFile (files w) (currentFileIndex w) = Some f
               /\ r = file f)
  /\ (forall v d, viewer w = Some v -> pdfData v = Some d ->
        exists f, currentFile (files w) (currentFileIndex w) = Some f
                  /\ d = DataURLOf (file f)).

(** The viewer is on screen with no converted data and no read running. *)
Definition stalled (w : World) : Prop :=
  SecurityLayer.obstructs (layer w) = false
  /\ reads w = []
  /\ exists v, viewer w = Some v /\ pdfData v = None.

(* ===================================================================== *)
(** * Properties *)
(* ===================================================================== *)

(** ** What a step leaves alone *)

Ltac split_cases :=
  repeat (simpl;
          match goal with
          | |- context [if ?b then _ else _] => destruct b
          | |- context [match ?x with _ => _ end] => destruct x
          end).

Ltac unfold_reconcile :=
  unfold reconcile, unmountViewer, mountViewer, pdfEffect, onViewer.

Ltac unfold_step :=
  unfold step, onFileChange, dispatchKeyDown, SecurityLayer.handleKeyDown,
    pdfEffect, onViewer.

Lemma navigator_reconcile w : navigator (reconcile w) = navigator w.
Proof. unfold_reconcile; split_cases; reflexivity. Qed.

Lemma files_reconcile w : files (reconcile w) = files w.
Proof. unfold_reconcile; split_cases; reflexivity. Qed.

Lemma index_reconcile w :
  currentFileIndex (reconcile w) = currentFileIndex w.
Proof. unfold_reconcile; split_cases; reflexivity. Qed.

Lemma layer_reconcile w : layer (reconcile w) = layer w.
Proof. unfold_reconcile; split_cases; reflexivity. Qed.

Lemma navigator_step w a : navigator (step w a) = navigator w.
Proof.
  destruct a; unfold_step; split_cases;
    rewrite ?navigator_reconcile; reflexivity.
Qed.

Lemma files_step w a : files (step w a) = files w.
Proof.
  destruct a; unfold_step; split_cases;
    rewrite ?files_reconcile; reflexivity.
Qed.

Lemma navigator_run acts : forall w, navigator (run w acts) = navigator w.
Proof.
  induction acts as [|a acts IH]; intro w; [reflexivity|].
  change (run w (a :: acts)) with (run (step w a) acts).
  rewrite IH. apply navigator_step.
Qed.

Lemma files_run acts : forall w, files (run w acts) = files w.
Proof.
  induction acts as [|a acts IH]; intro w; [reflexivity|].
  change (run w (a :: acts)) with (run (step w a) acts).
  rewrite IH. apply files_step.
Qed.

(** ** The viewer is mounted exactly when the layer lets it through *)

Lemma mountedWhenClear_onViewer h w :
  mountedWhenClear w -> mountedWhenClear (onViewer h w).
Proof.
  unfold mountedWhenClear, onViewer.
  destruct (viewer w) eqn:Hv; simpl; rewrite ?Hv; intro H; exact H.
Qed.

Lemma mountedWhenClear_withReads r w :
  mountedWhenClear w -> mountedWhenClear (withReads r w).
Proof. intro H; exact H. Qed.

Lemma mountedWhenClear_withIndex i w :
  mountedWhenClear w -> mountedWhenClear (withIndex i w).
Proof. intro H; exact H. Qed.

Lemma mountedWhenClear_pdfEffect w :
  mountedWhenClear w -> mountedWhenClear (pdfEffect w).
Proof.
  intro H. unfold pdfEffect.
  destruct (currentFile (files w) (currentFileIndex w)) as [f|].
  - destruct (String.eqb (type f) "application/pdf").
    + apply mountedWhenClear_withReads, H.
    + apply mountedWhenClear_onViewer, H.
  - apply mountedWhenClear_onViewer, H.
Qed.

Lemma mountedWhenClear_onFileChange j w :
  mountedWhenClear w -> mountedWhenClear (onFileChange j w).
Proof.
  intro H. unfold onFileChange.
  destruct (currentFileChanged (files w) (currentFileIndex w) j).
  - apply mountedWhenClear_pdfEffect, mountedWhenClear_withIndex, H.
  - apply mountedWhenClear_withIndex, H.
Qed.

Lemma mountedWhenClear_reconcile w : mountedWhenClear (reconcile w).
Proof.
  unfold reconcile.
  destruct (SecurityLayer.obstructs (layer w)) eqn:Hobs.
  - exact Hobs.
  - destruct (viewer w) eqn:Hv.
    + unfold mountedWhenClear. rewrite Hv. exact Hobs.
    + apply mountedWhenClear_pdfEffect. exact Hobs.
Qed.

Lemma mountedWhenClear_step w a :
  mountedWhenClear w -> mountedWhenClear (step w a).
Proof.
  intro H.
  destruct a; cbn [step];
    try apply mountedWhenClear_reconcile;
    try (apply mountedWhenClear_onViewer, H).
  - destruct (hasContinue w); [apply mountedWhenClear_reconcile | exact H].
  - destruct (viewer w), (nextFile (files w) (currentFileIndex w));
      try exact H.
    apply mountedWhenClear_onFileChange, H.
  - destruct (viewer w), (prevFile (currentFileIndex w)); try exact H.
    apply mountedWhenClear_onFileChange, H.
  - destruct (nth_error (reads w) k); [|exact H].
    apply mountedWhenClear_withReads, mountedWhenClear_onViewer, H.
  - apply mountedWhenClear_withReads, H.
Qed.

Lemma mountedWhenClear_reachable w : reachable w -> mountedWhenClear w.
Proof.
  induction 1 as [n fs i | w a _ IH].
  - apply mountedWhenClear_pdfEffect. reflexivity.
  - apply mountedWhenClear_step, IH.
Qed.

(** ** C1: obstruction and content never share the screen *)

Lemma render_obstructed w :
  (SecurityLayer.devToolsOpen (layer w)
   || SecurityLayer.screenCaptureAttempt (layer w)
   || contentHidden w)%bool = true ->
  showsObstruction (render w) = true /\ showsContent (render w) = false.
Proof.
  unfold render, SecurityLayer.render, DocumentViewer.render, contentHidden,
    viewerState.
  destruct (SecurityLayer.devToolsOpen (layer w)); [split; reflexivity|].
  destruct (SecurityLayer.screenCaptureAttempt (layer w));
    [split; reflexivity|].
  destruct (viewer w) as [v|]; simpl; [|discriminate].
  intros ->. split; reflexivity.
Qed.

(** C1.  In every reachable state of a session: if the layer suspects
    inspection tools or a capture attempt, or the viewer has lost focus,
    the screen shows an obstruction and not the result of [renderContent];
    obstruction and content are never on screen together; and content on
    screen is always the render of the mounted viewer with all three flags
    down. *)
Theorem C1_obstruction_excludes_content (w : World) (Hr : reachable w) :
  ((SecurityLayer.devToolsOpen (layer w)
    || SecurityLayer.screenCaptureAttempt (layer w)
    || contentHidden w)%bool = true ->
   showsObstruction (render w) = true /\ showsContent (render w) = false)
  /\ (showsObstruction (render w) && showsContent (render w))%bool = false
  /\ (showsContent (render w) = true ->
      exists v,
        viewer w = Some v
        /\ SecurityLayer.devToolsOpen (layer w) = false
        /\ SecurityLayer.screenCaptureAttempt (layer w) = false
        /\ isBlurred v = false
        /\ render w
           = SecurityLayer.Children
               (Shown (renderContent (files w) (currentFileIndex w) v))).
Proof.
  split; [apply render_obstructed|]. split.
  - destruct (render w) as [| |[|c]]; reflexivity.
  - pose proof (mountedWhenClear_reachable w Hr) as Hm.
    unfold mountedWhenClear, SecurityLayer.obstructs in Hm.
    unfold render, SecurityLayer.render, DocumentViewer.render, viewerState.
    destruct (SecurityLayer.devToolsOpen (layer w)); [discriminate|].
    destruct (SecurityLayer.screenCaptureAttempt (layer w)); [discriminate|].
    destruct (viewer w) as [v|]; [|discriminate].
    destruct (isBlurred v) eqn:Hb; [discriminate|].
    intros _. exists v. repeat split; auto.
Qed.

Lemma C1_obstruction_excludes_content_witness :
  showsObstruction (render Sample.unfocused) = true
  /\ showsContent (render Sample.unfocused) = false.
Proof.
  apply (C1_obstruction_excludes_content Sample.unfocused).
  - apply reachable_step, reachable_start.
  - reflexivity.
Defined.

(** ** C2: the capture call is intercepted *)

Lemma detectScreenCapture_present n :
  hasCaptureAPI n = true ->
  SecurityLayer.detectScreenCapture n
  = (mkNavigator (Some (mkMediaDevices (Some BlockingStub))), []).
Proof.
  unfold hasCaptureAPI, SecurityLayer.detectScreenCapture.
  destruct (mediaDevices n) as [md|]; [|discriminate].
  destruct (getDisplayMedia md); [reflexivity|discriminate].
Qed.

Lemma detectScreenCapture_absent n :
  hasCaptureAPI n = false -> SecurityLayer.detectScreenCapture n = (n, []).
Proof.
  unfold hasCaptureAPI, SecurityLayer.detectScreenCapture.
  destruct (mediaDevices n) as [md|]; [|reflexivity].
  destruct (getDisplayMedia md); [discriminate|reflexivity].
Qed.

Lemma navigator_start n fs i :
  navigator (start n fs i) = fst (SecurityLayer.detectScreenCapture n).
Proof. unfold start, mountViewer, pdfEffect, onViewer; split_cases; reflexivity. Qed.

(** C2.  When the layer starts on a navigator that has [getDisplayMedia],
    the function is replaced, and after any sequence of events of the
    session a call of it marks the capture attempt and hands the caller a
    rejected promise, so that the capture obstruction is on screen unless
    the inspection one already is.  When the function or
    [navigator.mediaDevices] is missing, the navigator is left as it was,
    nothing is written to the console, and a later call does not mark
    anything. *)
Theorem C2_capture_call_intercepted (n : Navigator)
    (fs : list UploadedFile) (i : Z) :
  (hasCaptureAPI n = true ->
   forall acts,
     let w := run (start n fs i) acts in
     navigator w = mkNavigator (Some (mkMediaDevices (Some BlockingStub)))
     /\ (exists msg,
           fst (SecurityLayer.callGetDisplayMedia (navigator w) (layer w))
           = Rejected msg)
     /\ SecurityLayer.screenCaptureAttempt
          (snd (SecurityLayer.callGetDisplayMedia (navigator w) (layer w)))
        = true
     /\ SecurityLayer.screenCaptureAttempt (layer (step w RequestCapture))
        = true
     /\ showsObstruction (render (step w RequestCapture)) = true)
  /\ (hasCaptureAPI n = false ->
      SecurityLayer.detectScreenCapture n = (n, [])
      /\ forall acts,
           let w := run (start n fs i) acts in
           navigator w = n
           /\ layer (step w RequestCapture) = layer w).
Proof.
  split; intro Hapi.
  - intros acts w.
    assert (Hnav : navigator w
                   = mkNavigator (Some (mkMediaDevices (Some BlockingStub)))).
    { unfold w. rewrite navigator_run, navigator_start.
      rewrite (detectScreenCapture_present n Hapi). reflexivity. }
    assert (Hflag : SecurityLayer.screenCaptureAttempt
                      (layer (step w RequestCapture)) = true).
    { cbn [step]. rewrite layer_reconcile, Hnav. reflexivity. }
    split; [exact Hnav|]. rewrite Hnav. split; [eexists; reflexivity|].
    split; [reflexivity|]. split; [exact Hflag|].
    apply render_obstructed. rewrite Hflag.
    destruct (SecurityLayer.devToolsOpen _); reflexivity.
  - split; [apply detectScreenCapture_absent, Hapi|].
    intros acts w.
    assert (Hnav : navigator w = n).
    { unfold w. rewrite navigator_run, navigator_start.
      rewrite (detectScreenCapture_absent n Hapi). reflexivity. }
    split; [exact Hnav|].
    cbn [step]. rewrite layer_reconcile. cbn [layer withLayer]. rewrite Hnav.
    unfold hasCaptureAPI in Hapi.
    unfold SecurityLayer.callGetDisplayMedia.
    destruct (mediaDevices n) as [md|]; [|reflexivity].
    destruct (getDisplayMedia md); [discriminate|reflexivity].
Qed.

Lemma C2_capture_call_intercepted_witness :
  SecurityLayer.screenCaptureAttempt
    (layer (step Sample.viewing RequestCapture)) = true
  /\ SecurityLayer.detectScreenCapture Sample.noMediaDevices
     = (Sample.noMediaDevices, []).
Proof.
  split.
  - exact (proj1 (proj2 (proj2 (proj2
             (proj1 (C2_capture_call_intercepted
                       Sample.chrome Sample.threeDocs 0) eq_refl []))))).
  - exact (proj1 (proj2 (C2_capture_call_intercepted
                           Sample.noMediaDevices Sample.threeDocs 0)
                    eq_refl)).
Defined.

(** ** C3: the inspection-tool poll *)

Lemma detectDevTools_flag size s :
  SecurityLayer.devToolsOpen (SecurityLayer.detectDevTools size s)
  = (SecurityLayer.widthThreshold size
     || SecurityLayer.heightThreshold size)%bool.
Proof.
  unfold SecurityLayer.detectDevTools.
  destruct (SecurityLayer.widthThreshold size
            || SecurityLayer.heightThreshold size)%bool; reflexivity.
Qed.

Lemma detectDevTools_capture size s :
  SecurityLayer.screenCaptureAttempt (SecurityLayer.detectDevTools size s)
  = SecurityLayer.screenCaptureAttempt s.
Proof.
  unfold SecurityLayer.detectDevTools.
  destruct (SecurityLayer.widthThreshold size
            || SecurityLayer.heightThreshold size)%bool; reflexivity.
Qed.

Lemma layer_poll w size :
  layer (step w (Poll size))
  = SecurityLayer.detectDevTools size (layer w).
Proof. cbn [step]. rewrite layer_reconcile. reflexivity. Qed.

Lemma thresholds_spec size :
  (SecurityLayer.widthThreshold size
   || SecurityLayer.heightThreshold size)%bool = true
  <-> (SecurityLayer.outerWidth size - SecurityLayer.innerWidth size > 160
       \/ SecurityLayer.outerHeight size - SecurityLayer.innerHeight size
          > 160).
Proof.
  unfold SecurityLayer.widthThreshold, SecurityLayer.heightThreshold.
  rewrite orb_true_iff, !Z.ltb_lt. lia.
Qed.

(** C3.  The poll is registered with a period of 500ms.  Each time it
    fires, [devToolsOpen] becomes true if the outer width exceeds the inner
    width by more than 160 or the outer height exceeds the inner height by
    more than 160, and false otherwise, whatever it was before.  So the
    access-denied obstruction is on screen right after a poll that sees the
    excess, and is off screen right after a poll that does not. *)
Theorem C3_inspection_poll (w : World) (size : SecurityLayer.WindowSize) :
  In (SecurityLayer.DetectDevTools, 500) SecurityLayer.timers
  /\ (SecurityLayer.outerWidth size - SecurityLayer.innerWidth size > 160
      \/ SecurityLayer.outerHeight size - SecurityLayer.innerHeight size
         > 160 ->
      SecurityLayer.devToolsOpen (layer (step w (Poll size))) = true
      /\ render (step w (Poll size)) = SecurityLayer.AccessDenied)
  /\ (SecurityLayer.outerWidth size - SecurityLayer.innerWidth size <= 160
      /\ SecurityLayer.outerHeight size - SecurityLayer.innerHeight size
         <= 160 ->
      SecurityLayer.devToolsOpen (layer (step w (Poll size))) = false
      /\ render (step w (Poll size)) <> SecurityLayer.AccessDenied).
Proof.
  split; [left; reflexivity|].
  pose proof (thresholds_spec size) as Hspec.
  pose proof (detectDevTools_flag size (layer w)) as Hflag.
  rewrite <- layer_poll in Hflag.
  split; intro H.
  - apply Hspec in H. rewrite H in Hflag. split; [exact Hflag|].
    unfold render, SecurityLayer.render. rewrite Hflag. reflexivity.
  - assert (Hoff : (SecurityLayer.widthThreshold size
                    || SecurityLayer.heightThreshold size)%bool = false).
    { apply not_true_is_false. intro E. apply Hspec in E. lia. }
    rewrite Hoff in Hflag. split; [exact Hflag|].
    unfold render, SecurityLayer.render. rewrite Hflag.
    destruct (SecurityLayer.screenCaptureAttempt _); discriminate.
Qed.

Lemma C3_inspection_poll_witness :
  render (step Sample.viewing (Poll Sample.docked))
  = SecurityLayer.AccessDenied
  /\ render (step (step Sample.viewing (Poll Sample.docked))
                  (Poll Sample.plain))
     <> SecurityLayer.AccessDenied.
Proof.
  split.
  - apply (C3_inspection_poll Sample.viewing Sample.docked).
    left. reflexivity.
  - apply (C3_inspection_poll (step Sample.viewing (Poll Sample.docked))
                              Sample.plain).
    split; discriminate.
Defined.

(** ** C4: navigation stays inside the document list *)

Lemma index_pdfEffect w :
  currentFileIndex (pdfEffect w) = currentFileIndex w.
Proof. unfold pdfEffect, onViewer; split_cases; reflexivity. Qed.

Lemma index_onFileChange j w : currentFileIndex (onFileChange j w) = j.
Proof.
  unfold onFileChange.
  destruct (currentFileChanged _ _ _); [rewrite index_pdfEffect|];
    reflexivity.
Qed.

Lemma index_onViewer h w :
  currentFileIndex (onViewer h w) = currentFileIndex w.
Proof. unfold onViewer; destruct (viewer w); reflexivity. Qed.

Lemma index_step w a :
  currentFileIndex (step w a) = currentFileIndex w
  \/ nextFile (files w) (currentFileIndex w)
     = Some (currentFileIndex (step w a))
  \/ prevFile (currentFileIndex w) = Some (currentFileIndex (step w a)).
Proof.
  destruct a; cbn [step]; rewrite ?index_reconcile, ?index_onViewer;
    try (left; reflexivity).
  - left. unfold dispatchKeyDown, SecurityLayer.handleKeyDown.
    split_cases; reflexivity.
  - left. destruct (hasContinue w); [rewrite index_reconcile|]; reflexivity.
  - destruct (viewer w); [|left; reflexivity].
    destruct (nextFile (files w) (currentFileIndex w)) as [j|] eqn:Hn;
      [|left; reflexivity].
    right; left. rewrite index_onFileChange. reflexivity.
  - destruct (viewer w); [|left; reflexivity].
    destruct (prevFile (currentFileIndex w)) as [j|] eqn:Hp;
      [|left; reflexivity].
    right; right. rewrite index_onFileChange. reflexivity.
  - left. destruct (nth_error (reads w) k); [|reflexivity].
    cbn [withReads currentFileIndex]. apply index_onViewer.
Qed.

Lemma nextFile_spec fs i :
  nextFile fs i
  = if i <? Z.of_nat (List.length fs) - 1 then Some (i + 1) else None.
Proof. reflexivity. Qed.

Lemma index_in_range_step w a :
  0 <= currentFileIndex w < Z.of_nat (List.length (files w)) ->
  0 <= currentFileIndex (step w a)
    < Z.of_nat (List.length (files (step w a))).
Proof.
  intro H. rewrite files_step.
  destruct (index_step w a) as [E | [E | E]].
  - rewrite E. exact H.
  - unfold nextFile in E.
    destruct (Z.ltb_spec (currentFileIndex w)
                (Z.of_nat (List.length (files w)) - 1)); [|discriminate].
    injection E as <-. lia.
  - unfold prevFile in E.
    destruct (Z.ltb_spec 0 (currentFileIndex w)); [|discriminate].
    injection E as <-. lia.
Qed.

Lemma index_in_range_run acts : forall w,
  0 <= currentFileIndex w < Z.of_nat (List.length (files w)) ->
  0 <= currentFileIndex (run w acts)
    < Z.of_nat (List.length (files (run w acts))).
Proof.
  induction acts as [|a acts IH]; intros w H; [exact H|].
  change (run w (a :: acts)) with (run (step w a) acts).
  apply IH, index_in_range_step, H.
Qed.

Lemma index_start n fs i : currentFileIndex (start n fs i) = i.
Proof. unfold start, mountViewer. rewrite index_pdfEffect. reflexivity. Qed.

Lemma files_start n fs i : files (start n fs i) = fs.
Proof.
  unfold start, mountViewer, pdfEffect, onViewer; split_cases; reflexivity.
Qed.

(** C4.  For a list of [n] documents and a current index [i] with
    [0 <= i <= n-1]: [nextFile] asks for [i+1] when [i < n-1] and does
    nothing when [i = n-1]; [prevFile] asks for [i-1] when [0 < i] and does
    nothing when [i = 0]; a click on the forward or backward button of the
    mounted viewer moves the index accordingly; and after any sequence of
    events of a session started at [i] the index is still within
    [0 .. n-1]. *)
Theorem C4_navigation_bounded (fs : list UploadedFile) (i : Z)
    (Hi : 0 <= i < Z.of_nat (List.length fs)) :
  (i < Z.of_nat (List.length fs) - 1 -> nextFile fs i = Some (i + 1))
  /\ (i = Z.of_nat (List.length fs) - 1 -> nextFile fs i = None)
  /\ (0 < i -> prevFile i = Some (i - 1))
  /\ (i = 0 -> prevFile i = None)
  /\ (forall w,
        files w = fs -> currentFileIndex w = i -> viewer w <> None ->
        currentFileIndex (step w ClickNext)
        = (if i =? Z.of_nat (List.length fs) - 1 then i else i + 1)
        /\ currentFileIndex (step w ClickPrev)
           = (if i =? 0 then i else i - 1))
  /\ (forall n acts,
        0 <= currentFileIndex (run (start n fs i) acts)
          < Z.of_nat (List.length fs)).
Proof.
  repeat split.
  - intro H. unfold nextFile.
    destruct (Z.ltb_spec i (Z.of_nat (List.length fs) - 1));
      [reflexivity|lia].
  - intro H. unfold nextFile.
    destruct (Z.ltb_spec i (Z.of_nat (List.length fs) - 1));
      [lia|reflexivity].
  - intro H. unfold prevFile. destruct (Z.ltb_spec 0 i); [reflexivity|lia].
  - intro H. unfold prevFile. destruct (Z.ltb_spec 0 i); [lia|reflexivity].
  - cbn [step]. destruct (viewer w); [|contradiction].
    rewrite H, H0. unfold nextFile.
    destruct (Z.ltb_spec i (Z.of_nat (List.length fs) - 1)),
             (Z.eqb_spec i (Z.of_nat (List.length fs) - 1));
      rewrite ?index_onFileChange; lia.
  - cbn [step]. destruct (viewer w); [|contradiction].
    rewrite H0. unfold prevFile.
    destruct (Z.ltb_spec 0 i), (Z.eqb_spec i 0);
      rewrite ?index_onFileChange; lia.
  - pose proof (index_in_range_run acts (start n fs i)) as H.
    rewrite files_run, files_start, index_start in H. apply H, Hi.
  - pose proof (index_in_range_run acts (start n fs i)) as H.
    rewrite files_run, files_start, index_start in H. apply H, Hi.
Qed.

Lemma C4_navigation_bounded_witness :
  nextFile Sample.threeDocs 1 = Some 2
  /\ nextFile Sample.threeDocs 2 = None
  /\ prevFile 1 = Some 0
  /\ prevFile 0 = None
  /\ 0 <= currentFileIndex
            (run Sample.viewing [ClickNext; ClickNext; ClickNext; ClickPrev])
       < 3.
Proof.
  assert (H0 : 0 <= 0 < Z.of_nat (List.length Sample.threeDocs))
    by (simpl; lia).
  assert (H1 : 0 <= 1 < Z.of_nat (List.length Sample.threeDocs))
    by (simpl; lia).
  assert (H2 : 0 <= 2 < Z.of_nat (List.length Sample.threeDocs))
    by (simpl; lia).
  pose proof (C4_navigation_bounded Sample.threeDocs 0 H0)
    as (_ & _ & _ & P0 & _ & R0).
  pose proof (C4_navigation_bounded Sample.threeDocs 1 H1)
    as (N1 & _ & P1 & _).
  pose proof (C4_navigation_bounded Sample.threeDocs 2 H2)
    as (_ & N2 & _).
  split; [apply N1; simpl; lia|].
  split; [apply N2; reflexivity|].
  split; [apply P1; lia|].
  split; [apply P0; reflexivity|].
  exact (R0 Sample.chrome [ClickNext; ClickNext; ClickNext; ClickPrev]).
Defined.

(** ** C5: the zoom level *)

Lemma zoomOk_initial : zoomOk (zoom initial).
Proof. split; [simpl; lia | exists 0; reflexivity]. Qed.

Lemma zoomOk_handleZoomIn s :
  zoomOk (zoom s) -> zoomOk (zoom (handleZoomIn s)).
Proof.
  intros [Hb [k Hk]]. cbn [handleZoomIn setZoom zoom].
  destruct (Z.min_spec (zoom s + 25) 200) as [[Hlt ->] | [Hge ->]].
  - split; [lia | exists (k + 1); lia].
  - split; [lia | exists 4; reflexivity].
Qed.

Lemma zoomOk_handleZoomOut s :
  zoomOk (zoom s) -> zoomOk (zoom (handleZoomOut s)).
Proof.
  intros [Hb [k Hk]]. cbn [handleZoomOut setZoom zoom].
  destruct (Z.max_spec (zoom s - 25) 50) as [[Hlt ->] | [Hge ->]].
  - split; [lia | exists (-2); reflexivity].
  - split; [lia | exists (k - 1); lia].
Qed.

Lemma zoomOk_zoomAll ops : forall s,
  zoomOk (zoom s) -> zoomOk (zoom (zoomAll ops s)).
Proof.
  induction ops as [|op ops IH]; intros s H; [exact H|].
  change (zoomAll (op :: ops) s) with (zoomAll ops (zoomBy op s)).
  apply IH. destruct op; [apply zoomOk_handleZoomIn | apply zoomOk_handleZoomOut];
    exact H.
Qed.

Lemma zoomOkIn_onViewer h w :
  (forall s, zoomOk (zoom s) -> zoomOk (zoom (h s))) ->
  zoomOkIn w -> zoomOkIn (onViewer h w).
Proof.
  intros Hh. unfold zoomOkIn, onViewer.
  destruct (viewer w) eqn:Hv; simpl; rewrite ?Hv; auto.
Qed.

Lemma zoomOkIn_pdfEffect w : zoomOkIn w -> zoomOkIn (pdfEffect w).
Proof.
  intro H. unfold pdfEffect.
  destruct (currentFile (files w) (currentFileIndex w)) as [f|].
  - destruct (String.eqb (type f) "application/pdf"); [exact H|].
    apply zoomOkIn_onViewer; auto.
  - apply zoomOkIn_onViewer; auto.
Qed.

Lemma zoomOkIn_onFileChange j w : zoomOkIn w -> zoomOkIn (onFileChange j w).
Proof.
  intro H. unfold onFileChange.
  destruct (currentFileChanged _ _ _); [apply zoomOkIn_pdfEffect|]; exact H.
Qed.

Lemma zoomOkIn_reconcile w : zoomOkIn w -> zoomOkIn (reconcile w).
Proof.
  intro H. unfold reconcile.
  destruct (SecurityLayer.obstructs (layer w)); [exact I|].
  destruct (viewer w) eqn:Hv; [exact H|].
  apply zoomOkIn_pdfEffect. exact zoomOk_initial.
Qed.

Lemma zoomOkIn_step w a : zoomOkIn w -> zoomOkIn (step w a).
Proof.
  intro H.
  destruct a; cbn [step];
    try (apply zoomOkIn_reconcile; exact H);
    try (apply zoomOkIn_onViewer; [|exact H]; auto).
  - apply zoomOkIn_reconcile. unfold dispatchKeyDown.
    destruct (propagationStopped _); [exact H|].
    destruct (SecurityLayer.handleKeyDown _ _); exact H.
  - destruct (hasContinue w); [apply zoomOkIn_reconcile|]; exact H.
  - apply zoomOk_handleZoomIn.
  - apply zoomOk_handleZoomOut.
  - destruct (viewer w) eqn:Hv,
             (nextFile (files w) (currentFileIndex w)); try exact H.
    apply zoomOkIn_onFileChange, H.
  - destruct (viewer w) eqn:Hv, (prevFile (currentFileIndex w));
      try exact H.
    apply zoomOkIn_onFileChange, H.
  - destruct (nth_error (reads w) k); [|exact H].
    apply (zoomOkIn_onViewer (onload (DataURLOf f)) w); auto.
  - exact H.
Qed.

Lemma zoomOkIn_run acts : forall w, zoomOkIn w -> zoomOkIn (run w acts).
Proof.
  induction acts as [|a acts IH]; intros w H; [exact H|].
  change (run w (a :: acts)) with (run (step w a) acts).
  apply IH, zoomOkIn_step, H.
Qed.

Lemma zoomOkIn_start n fs i : zoomOkIn (start n fs i).
Proof. apply zoomOkIn_pdfEffect. exact zoomOk_initial. Qed.

(** C5.  After any sequence of zoom-in and zoom-out clicks from the
    initial level of 100, the zoom is within [50, 200] and differs from
    100 by a multiple of 25; the same holds for the viewer of a session
    after any sequence of events.  Zooming in at 200 and zooming out at 50
    leave the state as it is. *)
Theorem C5_zoom_bounded :
  (forall ops, zoomOk (zoom (zoomAll ops initial)))
  /\ (forall n fs i acts, zoomOk (zoom (viewerState (run (start n fs i) acts))))
  /\ (forall s, zoom s = 200 -> handleZoomIn s = s)
  /\ (forall s, zoom s = 50 -> handleZoomOut s = s).
Proof.
  split; [intro ops; apply zoomOk_zoomAll, zoomOk_initial|].
  split.
  - intros n fs i acts.
    pose proof (zoomOkIn_run acts _ (zoomOkIn_start n fs i)) as H.
    unfold zoomOkIn in H. unfold viewerState.
    destruct (viewer _); [exact H | exact zoomOk_initial].
  - split; intros [z b d] Hz; simpl in Hz; subst z; reflexivity.
Qed.

Lemma C5_zoom_bounded_witness :
  handleZoomIn (mkState 200 false None) = mkState 200 false None
  /\ handleZoomOut (mkState 50 true None) = mkState 50 true None.
Proof.
  destruct C5_zoom_bounded as (_ & _ & Hin & Hout).
  split; [apply Hin | apply Hout]; reflexivity.
Defined.

(** ** C6: clipboard, drag and print events *)

Lemma clipboard_and_drag_cancelled ty :
  clipboardOrDrag ty = true -> defaultPrevented (dispatch ty) = true.
Proof. destruct ty; intro H; try discriminate H; reflexivity. Qed.

(** C6, at [beforeprint].  The only listener the layer registers for the
    event is [blockPrint], on the window; it returns without touching the
    event, so after dispatch the default action is not cancelled. *)
Theorem C6_beforeprint_not_cancelled :
  blockersAt Window BeforePrint = [SecurityLayer.BlockPrint]
  /\ blockersAt Document BeforePrint = []
  /\ (forall fl, SecurityLayer.blockPrint fl = fl)
  /\ defaultPrevented (dispatch BeforePrint) = false.
Proof. repeat split. Qed.

(** ** C7: the viewer's key suppression *)





(** ** C8: conversions that finish late *)

(** C8, on two PDFs.  The user opens [b.pdf], moves to [d.pdf] while the
    conversion of [b.pdf] is still running, and that conversion then
    finishes.  The frame titled [d.pdf] now shows the data of [b.pdf]
    while the conversion of [d.pdf] is still pending: the late result was
    not discarded.  The same frame is on screen when the first conversion
    finishes before the user moves on, because the effect does not clear
    [pdfData] when the next document is a PDF too. *)
Theorem C8_stale_conversion_displayed :
  currentFile (files Sample.overtaken) (currentFileIndex Sample.overtaken)
  = Some Sample.d_pdf
  /\ reads Sample.overtaken = [file Sample.d_pdf]
  /\ render Sample.overtaken
     = SecurityLayer.Children
         (Shown (PdfFrame (DataURLOf (file Sample.b_pdf)) "d.pdf" 100))
  /\ ~ frameShowsCurrent Sample.overtaken
  /\ render (run (start Sample.chrome Sample.twoPdfs 0)
                 [ReadLoaded 0%nat; ClickNext])
     = SecurityLayer.Children
         (Shown (PdfFrame (DataURLOf (file Sample.b_pdf)) "d.pdf" 100)).
Proof.
  split; [reflexivity|]. split; [reflexivity|]. split; [reflexivity|].
  split; [|reflexivity].
  intro H.
  destruct (H (DataURLOf (file Sample.b_pdf)) "d.pdf" 100 eq_refl)
    as (f & Hf & Hd).
  injection Hf as <-. discriminate Hd.
Qed.

(** ** C9: what the obstructions let the user dismiss *)

Lemma layer_onViewer h w : layer (onViewer h w) = layer w.
Proof. unfold onViewer; destruct (viewer w); reflexivity. Qed.

Lemma layer_pdfEffect w : layer (pdfEffect w) = layer w.
Proof.
  unfold pdfEffect.
  destruct (currentFile _ _) as [f|]; [|apply layer_onViewer].
  destruct (String.eqb _ _); [reflexivity | apply layer_onViewer].
Qed.

Lemma layer_onFileChange j w : layer (onFileChange j w) = layer w.
Proof.
  unfold onFileChange.
  destruct (currentFileChanged _ _ _); [rewrite layer_pdfEffect|];
    reflexivity.
Qed.

Lemma layer_dispatchKeyDown e w :
  layer (snd (dispatchKeyDown e w)) = layer w
  \/ layer (snd (dispatchKeyDown e w))
     = SecurityLayer.setDevToolsOpen true (layer w).
Proof.
  unfold dispatchKeyDown, SecurityLayer.handleKeyDown.
  destruct (propagationStopped _); [left; reflexivity|].
  destruct (SecurityLayer.isDevShortcut e); [right | left]; reflexivity.
Qed.

Lemma layer_requestCapture w :
  SecurityLayer.devToolsOpen (layer (step w RequestCapture))
  = SecurityLayer.devToolsOpen (layer w).
Proof.
  cbn [step]. rewrite layer_reconcile. cbn [layer withLayer].
  unfold SecurityLayer.callGetDisplayMedia.
  destruct (mediaDevices (navigator w)) as [md|]; [|reflexivity].
  destruct (getDisplayMedia md) as [[|]|]; reflexivity.
Qed.

Lemma layer_clickContinue w :
  layer (step w ClickContinue)
  = if hasContinue w then SecurityLayer.onContinue (layer w) else layer w.
Proof.
  cbn [step]. destruct (hasContinue w); [rewrite layer_reconcile|];
    reflexivity.
Qed.

(** Only the poll can lower [devToolsOpen]. *)
Lemma devToolsOpen_step w a :
  SecurityLayer.devToolsOpen (layer w) = true ->
  SecurityLayer.devToolsOpen (layer (step w a)) = true
  \/ exists size,
       a = Poll size
       /\ SecurityLayer.widthThreshold size = false
       /\ SecurityLayer.heightThreshold size = false.
Proof.
  intro Hon. destruct a.
  - rewrite layer_poll, detectDevTools_flag.
    destruct (SecurityLayer.widthThreshold size
              || SecurityLayer.heightThreshold size)%bool eqn:E;
      [left; reflexivity|].
    right. exists size. apply orb_false_iff in E. split; [reflexivity|exact E].
  - left. cbn [step]. rewrite layer_reconcile.
    destruct (layer_dispatchKeyDown e w) as [-> | ->];
      [exact Hon | reflexivity].
  - left. rewrite layer_requestCapture. exact Hon.
  - left. rewrite layer_clickContinue.
    destruct (hasContinue w); exact Hon.
  - left. cbn [step]. rewrite layer_onViewer. exact Hon.
  - left. cbn [step]. rewrite layer_onViewer. exact Hon.
  - left. cbn [step]. rewrite layer_onViewer. exact Hon.
  - left. cbn [step]. rewrite layer_onViewer. exact Hon.
  - left. cbn [step]. rewrite layer_onViewer. exact Hon.
  - left. cbn [step].
    destruct (viewer w), (nextFile (files w) (currentFileIndex w));
      rewrite ?layer_onFileChange; exact Hon.
  - left. cbn [step].
    destruct (viewer w), (prevFile (currentFileIndex w));
      rewrite ?layer_onFileChange; exact Hon.
  - left. cbn [step]. destruct (nth_error (reads w) k); [|exact Hon].
    cbn [layer withReads]. rewrite layer_onViewer. exact Hon.
  - left. exact Hon.
Qed.

(** C9.  The Continue button belongs to the capture obstruction alone;
    its handler lowers [screenCaptureAttempt] and leaves [devToolsOpen] as
    it is, and in a session a click on it leaves [devToolsOpen], the
    patched navigator, the document list and the current index unchanged.
    The access-denied obstruction has no button, and no event of a session
    other than a poll that finds both size differences at or under the
    threshold lowers [devToolsOpen]. *)
Theorem C9_acknowledgement_frame :
  (forall s,
     SecurityLayer.devToolsOpen (SecurityLayer.onContinue s)
     = SecurityLayer.devToolsOpen s
     /\ SecurityLayer.screenCaptureAttempt (SecurityLayer.onContinue s)
        = false)
  /\ (forall w,
        SecurityLayer.devToolsOpen (layer (step w ClickContinue))
        = SecurityLayer.devToolsOpen (layer w)
        /\ navigator (step w ClickContinue) = navigator w
        /\ files (step w ClickContinue) = files w
        /\ currentFileIndex (step w ClickContinue) = currentFileIndex w)
  /\ (forall w,
        render w = SecurityLayer.ScreenCaptureBlocked ->
        SecurityLayer.buttons (render w) = [SecurityLayer.Continue]
        /\ layer (step w ClickContinue)
           = SecurityLayer.mkState false false)
  /\ (forall w,
        SecurityLayer.devToolsOpen (layer w) = true ->
        render w = SecurityLayer.AccessDenied
        /\ SecurityLayer.buttons (render w) = []
        /\ step w ClickContinue = w)
  /\ (forall w a,
        SecurityLayer.devToolsOpen (layer w) = true ->
        SecurityLayer.devToolsOpen (layer (step w a)) = false ->
        exists size,
          a = Poll size
          /\ SecurityLayer.outerWidth size - SecurityLayer.innerWidth size
             <= 160
          /\ SecurityLayer.outerHeight size - SecurityLayer.innerHeight size
             <= 160).
Proof.
  split; [intro s; split; reflexivity|].
  split.
  { intro w. rewrite navigator_step, files_step, layer_clickContinue.
    repeat split.
    - destruct (hasContinue w); reflexivity.
    - destruct (index_step w ClickContinue) as [E | [E | E]]; [exact E| |];
        cbn [step] in *; destruct (hasContinue w);
        rewrite ?index_reconcile; reflexivity. }
  split.
  { intros w Hr. rewrite Hr. split; [reflexivity|].
    rewrite layer_clickContinue. unfold hasContinue.
    unfold render, SecurityLayer.render in Hr.
    unfold SecurityLayer.render.
    destruct (layer w) as [dev cap]. cbn in *.
    destruct dev; [discriminate|]. destruct cap; [reflexivity|discriminate]. }
  split.
  { intros w Hon. unfold render, SecurityLayer.render. rewrite Hon.
    repeat split. cbn [step]. unfold hasContinue, SecurityLayer.render.
    rewrite Hon. reflexivity. }
  intros w a Hon Hoff.
  destruct (devToolsOpen_step w a Hon) as [H | (size & -> & Hw & Hh)];
    [congruence|].
  exists size. split; [reflexivity|].
  unfold SecurityLayer.widthThreshold, SecurityLayer.heightThreshold in *.
  apply Z.ltb_ge in Hw, Hh. lia.
Qed.

Lemma C9_acknowledgement_frame_witness :
  layer (step (step Sample.viewing RequestCapture) ClickContinue)
  = SecurityLayer.mkState false false
  /\ SecurityLayer.buttons (render (step Sample.viewing (Poll Sample.docked)))
     = [].
Proof.
  destruct C9_acknowledgement_frame as (_ & _ & Hack & Hdenied & _).
  split.
  - apply (Hack (step Sample.viewing RequestCapture)). reflexivity.
  - apply (Hdenied (step Sample.viewing (Poll Sample.docked))). reflexivity.
Defined.

(** ** C10: the layer's own key handler *)

(** What the layer's handler does when it runs on one of its keys. *)
Lemma handleKeyDown_detects e fl s :
  SecurityLayer.isDevShortcut e = true ->
  SecurityLayer.handleKeyDown e (fl, s)
  = (preventDefault fl, SecurityLayer.setDevToolsOpen true s).
Proof. unfold SecurityLayer.handleKeyDown. intros ->. reflexivity. Qed.

(** Every key of the layer's handler is a key of the viewer's. *)
Lemma isDevShortcut_blocked e :
  SecurityLayer.isDevShortcut e = true -> isBlockedShortcut e = true.
Proof.
  unfold SecurityLayer.isDevShortcut, isBlockedShortcut.
  destruct (ctrlKey e), (shiftKey e); cbn [andb orb];
    rewrite ?orb_false_r;
    destruct (String.eqb_spec (key e) "F12") as [->|_]; cbn [orb];
      try reflexivity;
    try (destruct (String.eqb_spec (key e) "I") as [->|_]; cbn [orb];
           [reflexivity|]);
    try (destruct (String.eqb_spec (key e) "C") as [->|_]; cbn [orb];
           [reflexivity|]);
    try (destruct (String.eqb_spec (key e) "U") as [->|_];
           [reflexivity|]);
    discriminate.
Qed.

(** While the viewer is mounted, no key press reaches the layer's
    handler with an effect: the viewer's capturing listener stops the
    propagation of every key the layer would react to. *)
Lemma mounted_viewer_shadows_layer e w :
  viewer w <> None -> layer (step w (PressKey e)) = layer w.
Proof.
  intro Hv. cbn [step]. rewrite layer_reconcile.
  unfold dispatchKeyDown, DocumentViewer.handleKeyDown,
    SecurityLayer.handleKeyDown.
  destruct (viewer w); [|contradiction].
  destruct (isBlockedShortcut e) eqn:Hb; [reflexivity|].
  destruct (SecurityLayer.isDevShortcut e) eqn:Hd; [|reflexivity].
  apply isDevShortcut_blocked in Hd. congruence.
Qed.

(** C10, at Ctrl+U.  The browser reports the key of Ctrl+U as ["u"]; the
    layer's handler looks for ["U"], so it neither cancels the event nor
    raises [devToolsOpen], in any state of a session.  In a session that
    shows the viewer the same is true of F12: the viewer's handler cancels
    it and stops it before the layer's handler is reached, and the screen
    stays on the document. *)
Theorem C10_ctrl_u_not_detected :
  SecurityLayer.isDevShortcut Sample.key_ctrl_u = false
  /\ (forall fl s,
        SecurityLayer.handleKeyDown Sample.key_ctrl_u (fl, s) = (fl, s))
  /\ (forall w, layer (step w (PressKey Sample.key_ctrl_u)) = layer w)
  /\ SecurityLayer.devToolsOpen
       (layer (step Sample.viewing (PressKey Sample.key_ctrl_u))) = false
  /\ render (step Sample.viewing (PressKey Sample.key_F12))
     = render Sample.viewing.
Proof.
  split; [reflexivity|]. split; [reflexivity|].
  split; [|split; reflexivity].
  intro w. cbn [step]. rewrite layer_reconcile.
  unfold dispatchKeyDown. destruct (viewer w); reflexivity.
Qed.

(* ===================================================================== *)
(** * Further properties of the session *)
(* ===================================================================== *)

(** ** Key presses *)

Lemma withLayer_same w : withLayer (layer w) w = w.
Proof. destruct w; reflexivity. Qed.

Lemma reconcile_mounted w v :
  viewer w = Some v ->
  SecurityLayer.obstructs (layer w) = false ->
  reconcile w = w.
Proof. intros Hv Hc. unfold reconcile. rewrite Hc, Hv. reflexivity. Qed.

Lemma dispatchKeyDown_mounted e w v :
  viewer w = Some v ->
  dispatchKeyDown e w = (DocumentViewer.handleKeyDown e untouched, w).
Proof.
  intro Hv. unfold dispatchKeyDown, DocumentViewer.handleKeyDown,
    SecurityLayer.handleKeyDown.
  rewrite Hv.
  destruct (isBlockedShortcut e) eqn:Hb; [reflexivity|].
  destruct (SecurityLayer.isDevShortcut e) eqn:Hd.
  - apply isDevShortcut_blocked in Hd. congruence.
  - cbn. rewrite withLayer_same. reflexivity.
Qed.

(** While the viewer is on screen a key press changes nothing in the
    session: the event carries the flags set by the viewer's handler and
    the layer's handler has no effect, whatever the key. *)
Theorem keydown_leaves_viewing_session (w : World) (e : KeyboardEvent)
    (Hr : reachable w) (Hv : viewer w <> None) :
  step w (PressKey e) = w
  /\ fst (dispatchKeyDown e w) = DocumentViewer.handleKeyDown e untouched.
Proof.
  pose proof (mountedWhenClear_reachable w Hr) as Hm.
  unfold mountedWhenClear in Hm.
  destruct (viewer w) as [v|] eqn:E; [|contradiction].
  cbn [step]. rewrite (dispatchKeyDown_mounted e w v E). cbn [fst snd].
  split; [|reflexivity]. apply (reconcile_mounted w v E Hm).
Qed.

Lemma keydown_leaves_viewing_session_witness :
  step Sample.viewing (PressKey Sample.key_F12) = Sample.viewing.
Proof.
  apply (keydown_leaves_viewing_session Sample.viewing Sample.key_F12).
  - apply reachable_start.
  - discriminate.
Defined.

(** A key pressed without Ctrl that is not F12, F5 or PrintScreen is not
    recognised by either handler: its default action is not cancelled and
    its propagation is not stopped, in any state. *)
Theorem plain_keys_pass_through (e : KeyboardEvent)
    (Hctrl : ctrlKey e = false)
    (H12 : key e <> "F12") (H5 : key e <> "F5")
    (Hps : key e <> "PrintScreen") :
  isBlockedShortcut e = false
  /\ SecurityLayer.isDevShortcut e = false
  /\ forall w, dispatchKeyDown e w = (untouched, w).
Proof.
  apply String.eqb_neq in H12, H5, Hps.
  assert (Hb : isBlockedShortcut e = false).
  { unfold isBlockedShortcut. rewrite Hctrl, H12, H5, Hps. reflexivity. }
  assert (Hd : SecurityLayer.isDevShortcut e = false).
  { unfold SecurityLayer.isDevShortcut. rewrite Hctrl, H12. reflexivity. }
  repeat split; try assumption.
  intro w. unfold dispatchKeyDown, DocumentViewer.handleKeyDown,
    SecurityLayer.handleKeyDown.
  rewrite Hb, Hd. destruct (viewer w); cbn; rewrite withLayer_same;
    reflexivity.
Qed.

Lemma plain_keys_pass_through_witness :
  dispatchKeyDown (mkKey "a" false false) Sample.viewing
  = (untouched, Sample.viewing).
Proof.
  apply (plain_keys_pass_through (mkKey "a" false false));
    [reflexivity | discriminate | discriminate | discriminate].
Defined.

(** ** Focus and visibility *)

Lemma withViewer_same w v : viewer w = Some v -> withViewer (Some v) w = w.
Proof. destruct w; cbn; intros ->; reflexivity. Qed.

Lemma setIsBlurred_same v : setIsBlurred (isBlurred v) v = v.
Proof. destruct v; reflexivity. Qed.

(** The three focus handlers write the same flag, so the last event
    decides.  From a state that shows the viewer unblurred: losing focus
    or visibility puts the protected block on screen, and any of the two
    "back" events (focus, or the page becoming visible) after any of the
    two "away" events restores the session exactly, zoom, converted data
    and current document included. *)
Theorem focus_loss_round_trip (w : World) (v : State)
    (Hv : viewer w = Some v) (Hb : isBlurred v = false)
    (Hc : SecurityLayer.obstructs (layer w) = false) :
  render (step w WindowBlur) = SecurityLayer.Children ContentProtected
  /\ render (step w (VisibilityChange true))
     = SecurityLayer.Children ContentProtected
  /\ step (step w WindowBlur) WindowFocus = w
  /\ step (step w (VisibilityChange true)) (VisibilityChange false) = w
  /\ step (step w WindowBlur) (VisibilityChange false) = w
  /\ step (step w (VisibilityChange true)) WindowFocus = w.
Proof.
  unfold SecurityLayer.obstructs in Hc. apply orb_false_iff in Hc.
  destruct Hc as [Hd Hs].
  assert (Hback : withViewer (Some (setIsBlurred false v)) w = w).
  { rewrite <- Hb, setIsBlurred_same. apply withViewer_same, Hv. }
  repeat split;
    cbn [step]; unfold onViewer, render, SecurityLayer.render, viewerState;
    rewrite Hv; cbn; rewrite ?Hd, ?Hs; try reflexivity;
    destruct w; cbn in *; subst; destruct v; cbn in *; subst; reflexivity.
Qed.

Lemma focus_loss_round_trip_witness :
  render (step Sample.viewing WindowBlur)
  = SecurityLayer.Children ContentProtected
  /\ step (step Sample.viewing WindowBlur) WindowFocus = Sample.viewing.
Proof.
  destruct (focus_loss_round_trip Sample.viewing initial
              eq_refl eq_refl eq_refl) as (H1 & _ & H3 & _).
  split; [exact H1 | exact H3].
Defined.

(** ** Zoom *)

Lemma viewer_reconcile_kept w v v' :
  viewer w = Some v -> viewer (reconcile w) = Some v' -> v' = v.
Proof.
  unfold reconcile. intros Hv.
  destruct (SecurityLayer.obstructs (layer w)); [discriminate|].
  rewrite Hv, Hv. congruence.
Qed.

Lemma zoom_pdfEffect w v v' :
  viewer w = Some v -> viewer (pdfEffect w) = Some v' -> zoom v' = zoom v.
Proof.
  unfold pdfEffect, onViewer. intros Hv.
  destruct (currentFile _ _) as [f|];
    [destruct (String.eqb _ _)|]; cbn; rewrite Hv; cbn;
    intro H; injection H as <-; reflexivity.
Qed.

Lemma zoom_onFileChange j w v v' :
  viewer w = Some v -> viewer (onFileChange j w) = Some v' ->
  zoom v' = zoom v.
Proof.
  unfold onFileChange. intros Hv.
  destruct (currentFileChanged _ _ _).
  - apply zoom_pdfEffect. exact Hv.
  - cbn. congruence.
Qed.

(** Nothing but the two zoom buttons changes the zoom of a viewer that
    stays mounted: it survives navigation to another document, loss and
    return of focus, key presses, polls and finished or failed
    conversions. *)
Theorem zoom_survives_other_events (w : World) (a : Action) (v v' : State)
    (Hv : viewer w = Some v) (Hv' : viewer (step w a) = Some v')
    (Ha : isZoom a = false) :
  zoom v' = zoom v.
Proof.
  destruct a; try discriminate Ha; cbn [step] in Hv'.
  - apply (viewer_reconcile_kept _ v v') in Hv'; [subst; reflexivity|exact Hv].
  - rewrite (dispatchKeyDown_mounted e w v Hv) in Hv'. cbn [snd] in Hv'.
    apply (viewer_reconcile_kept _ v v') in Hv'; [subst; reflexivity|exact Hv].
  - apply (viewer_reconcile_kept _ v v') in Hv'; [subst; reflexivity|exact Hv].
  - destruct (hasContinue w); [|congruence].
    apply (viewer_reconcile_kept _ v v') in Hv'; [subst; reflexivity|exact Hv].
  - unfold onViewer in Hv'. rewrite Hv in Hv'. cbn in Hv'.
    injection Hv' as <-. reflexivity.
  - unfold onViewer in Hv'. rewrite Hv in Hv'. cbn in Hv'.
    injection Hv' as <-. reflexivity.
  - unfold onViewer in Hv'. rewrite Hv in Hv'. cbn in Hv'.
    injection Hv' as <-. reflexivity.
  - rewrite Hv in Hv'.
    destruct (nextFile (files w) (currentFileIndex w)); [|congruence].
    apply (zoom_onFileChange _ _ _ _ Hv Hv').
  - rewrite Hv in Hv'.
    destruct (prevFile (currentFileIndex w)); [|congruence].
    apply (zoom_onFileChange _ _ _ _ Hv Hv').
  - destruct (nth_error (reads w) k); [|congruence].
    cbn in Hv'. unfold onViewer in Hv'. rewrite Hv in Hv'. cbn in Hv'.
    injection Hv' as <-. reflexivity.
  - cbn in Hv'. congruence.
Qed.

Lemma zoom_survives_other_events_witness :
  zoom (viewerState (step (step Sample.viewing ClickZoomIn) ClickNext)) = 125.
Proof.
  exact (zoom_survives_other_events
           (step Sample.viewing ClickZoomIn) ClickNext
           (mkState 125 false None) (mkState 125 false None)
           eq_refl eq_refl eq_refl).
Defined.

(** In a state whose zoom is within [50, 200] and a multiple of 25 away
    from 100, as every state of a session is: an enabled zoom button moves
    the zoom by exactly 25 and the opposite button undoes it; a disabled
    one would change nothing. *)
Theorem zoom_buttons_exact (s : State) (Hok : zoomOk (zoom s)) :
  (Toolbar.zoomInDisabled s = false ->
   zoom (handleZoomIn s) = zoom s + 25
   /\ handleZoomOut (handleZoomIn s) = s)
  /\ (Toolbar.zoomOutDisabled s = false ->
      zoom (handleZoomOut s) = zoom s - 25
      /\ handleZoomIn (handleZoomOut s) = s)
  /\ (Toolbar.zoomInDisabled s = true -> handleZoomIn s = s)
  /\ (Toolbar.zoomOutDisabled s = true -> handleZoomOut s = s).
Proof.
  destruct Hok as [Hb [k Hk]]. destruct s as [z b d].
  unfold Toolbar.zoomInDisabled, Toolbar.zoomOutDisabled,
    handleZoomIn, handleZoomOut, setZoom.
  cbn [zoom isBlurred pdfData] in *.
  split; [intro H; apply Z.leb_gt in H; split; [|f_equal]; lia|].
  split; [intro H; apply Z.leb_gt in H; split; [|f_equal]; lia|].
  split; intro H; apply Z.leb_le in H; f_equal; lia.
Qed.

Lemma zoom_buttons_exact_witness :
  zoom (handleZoomIn initial) = 125
  /\ handleZoomOut (handleZoomIn initial) = initial.
Proof.
  assert (Hok : zoomOk (zoom initial))
    by (split; [cbn; lia | exists 0; reflexivity]).
  apply (proj1 (zoom_buttons_exact initial Hok)). reflexivity.
Defined.

(** ** Navigation *)

(** For an index inside the list, each navigation button is disabled
    exactly when its handler would do nothing; and when the buttons are
    not rendered at all (a single document) both handlers do nothing. *)
Theorem nav_buttons_match_handlers (fs : list UploadedFile) (i : Z)
    (Hi : 0 <= i < Z.of_nat (List.length fs)) :
  (Toolbar.nextDisabled fs i = true <-> nextFile fs i = None)
  /\ (Toolbar.prevDisabled i = true <-> prevFile i = None)
  /\ (Toolbar.navShown fs = false ->
      nextFile fs i = None /\ prevFile i = None).
Proof.
  unfold Toolbar.nextDisabled, Toolbar.prevDisabled, Toolbar.navShown,
    nextFile, prevFile.
  destruct (Z.eqb_spec i (Z.of_nat (List.length fs) - 1)),
           (Z.ltb_spec i (Z.of_nat (List.length fs) - 1)),
           (Z.eqb_spec i 0), (Z.ltb_spec 0 i),
           (Z.ltb_spec 1 (Z.of_nat (List.length fs)));
    try lia; repeat split; intros; try discriminate; try reflexivity; lia.
Qed.

Lemma nav_buttons_match_handlers_witness :
  (Toolbar.nextDisabled Sample.threeDocs 2 = true
   <-> nextFile Sample.threeDocs 2 = None)
  /\ (Toolbar.prevDisabled 2 = true <-> prevFile 2 = None).
Proof.
  assert (H : 0 <= 2 < Z.of_nat (List.length Sample.threeDocs))
    by (cbn; lia).
  destruct (nav_buttons_match_handlers Sample.threeDocs 2 H) as (A & B & _).
  split; [exact A | exact B].
Defined.

Lemma currentFile_onFileChange j w :
  files (onFileChange j w) = files w.
Proof.
  unfold onFileChange, pdfEffect, onViewer. split_cases; reflexivity.
Qed.

Lemma viewer_pdfEffect_mounted w :
  viewer w <> None -> viewer (pdfEffect w) <> None.
Proof.
  unfold pdfEffect, onViewer.
  destruct (viewer w) eqn:Hv; [|contradiction]. intros _.
  destruct (currentFile _ _) as [f|];
    [destruct (String.eqb _ _)|]; cbn; rewrite ?Hv; discriminate.
Qed.

Lemma viewer_onFileChange_mounted j w :
  viewer w <> None -> viewer (onFileChange j w) <> None.
Proof.
  unfold onFileChange. intro Hv.
  destruct (currentFileChanged _ _ _);
    [apply viewer_pdfEffect_mounted|]; exact Hv.
Qed.

(** Forward then backward, or backward then forward, comes back to the
    same document whenever the first move is possible. *)
Theorem navigation_round_trip (w : World)
    (Hv : viewer w <> None)
    (Hlo : 0 <= currentFileIndex w)
    (Hhi : currentFileIndex w < Z.of_nat (List.length (files w))) :
  (currentFileIndex w < Z.of_nat (List.length (files w)) - 1 ->
   currentFileIndex (step w ClickNext) = currentFileIndex w + 1
   /\ currentFileIndex (step (step w ClickNext) ClickPrev)
      = currentFileIndex w)
  /\ (0 < currentFileIndex w ->
      currentFileIndex (step w ClickPrev) = currentFileIndex w - 1
      /\ currentFileIndex (step (step w ClickPrev) ClickNext)
         = currentFileIndex w).
Proof.
  split; intro H.
  - assert (Hn : step w ClickNext = onFileChange (currentFileIndex w + 1) w).
    { cbn [step]. destruct (viewer w); [|contradiction]. unfold nextFile.
      destruct (Z.ltb_spec (currentFileIndex w)
                  (Z.of_nat (List.length (files w)) - 1)); [reflexivity|lia]. }
    rewrite Hn. rewrite index_onFileChange. split; [reflexivity|].
    cbn [step].
    pose proof (viewer_onFileChange_mounted (currentFileIndex w + 1) w Hv)
      as Hv'.
    destruct (viewer (onFileChange (currentFileIndex w + 1) w));
      [|contradiction].
    rewrite index_onFileChange. unfold prevFile.
    destruct (Z.ltb_spec 0 (currentFileIndex w + 1)); [|lia].
    rewrite index_onFileChange. lia.
  - assert (Hp : step w ClickPrev = onFileChange (currentFileIndex w - 1) w).
    { cbn [step]. destruct (viewer w); [|contradiction]. unfold prevFile.
      destruct (Z.ltb_spec 0 (currentFileIndex w)); [reflexivity|lia]. }
    rewrite Hp. rewrite index_onFileChange. split; [reflexivity|].
    cbn [step].
    pose proof (viewer_onFileChange_mounted (currentFileIndex w - 1) w Hv)
      as Hv'.
    destruct (viewer (onFileChange (currentFileIndex w - 1) w));
      [|contradiction].
    rewrite index_onFileChange, currentFile_onFileChange. unfold nextFile.
    destruct (Z.ltb_spec (currentFileIndex w - 1)
                (Z.of_nat (List.length (files w)) - 1)); [|lia].
    rewrite index_onFileChange. lia.
Qed.

Lemma navigation_round_trip_witness :
  currentFileIndex (step (step Sample.viewing ClickNext) ClickPrev) = 0.
Proof.
  apply (navigation_round_trip Sample.viewing);
    [discriminate | cbn; lia | cbn; lia | cbn; lia].
Defined.

(** ** Conversions *)

Lemma conversionsCurrent_mount w :
  conversionsCurrent (mountViewer w).
Proof.
  unfold mountViewer, pdfEffect, onViewer, conversionsCurrent. cbn.
  destruct (currentFile (files w) (currentFileIndex w)) as [f|] eqn:Hf;
    [destruct (String.eqb (type f) "application/pdf")|]; cbn;
    rewrite ?Hf; (split; [intros r Hr | intros v d Hv Hd]).
  - destruct Hr as [<-|[]]. exists f. split; reflexivity.
  - injection Hv as <-. discriminate Hd.
  - destruct Hr.
  - injection Hv as <-. discriminate Hd.
  - destruct Hr.
  - injection Hv as <-. discriminate Hd.
Qed.

Lemma conversionsCurrent_reconcile w :
  conversionsCurrent w -> conversionsCurrent (reconcile w).
Proof.
  intro H. unfold reconcile.
  destruct (SecurityLayer.obstructs (layer w)).
  - split; cbn; [intros r [] | intros v d Hv; discriminate Hv].
  - destruct (viewer w); [exact H | apply conversionsCurrent_mount].
Qed.

Lemma conversionsCurrent_withLayer l w :
  conversionsCurrent w -> conversionsCurrent (withLayer l w).
Proof. intro H; exact H. Qed.

Lemma conversionsCurrent_onViewer h w :
  (forall v, pdfData (h v) = pdfData v) ->
  conversionsCurrent w -> conversionsCurrent (onViewer h w).
Proof.
  intros Hh H. unfold onViewer.
  destruct (viewer w) as [v0|] eqn:Hv; [|exact H].
  destruct H as [Hr Hd]. split; cbn; [exact Hr|].
  intros v d E Hp. injection E as <-. rewrite Hh in Hp.
  apply (Hd v0 d Hv Hp).
Qed.

Lemma In_dropNth {A : Type} (k : nat) (x : A) : forall l : list A,
  In x (dropNth k l) -> In x l.
Proof.
  unfold dropNth.
  induction k as [|k IH]; intros [|y l] H; cbn in H; try contradiction.
  - right. exact H.
  - destruct H as [H|H]; [left; exact H | right; apply IH, H].
Qed.

Lemma conversionsCurrent_step w a :
  isNavigation a = false ->
  conversionsCurrent w -> conversionsCurrent (step w a).
Proof.
  intros Ha H.
  destruct a; try discriminate Ha; cbn [step];
    try (apply conversionsCurrent_reconcile, conversionsCurrent_withLayer, H);
    try (apply conversionsCurrent_onViewer; [intros [z b d]; reflexivity|];
         exact H).
  - apply conversionsCurrent_reconcile.
    unfold dispatchKeyDown.
    destruct (propagationStopped _); [exact H|].
    destruct (SecurityLayer.handleKeyDown _ _). exact H.
  - destruct (hasContinue w); [|exact H].
    apply conversionsCurrent_reconcile, conversionsCurrent_withLayer, H.
  - destruct (nth_error (reads w) k) as [r|] eqn:Hk; [|exact H].
    destruct H as [Hr Hd].
    destruct (Hr r (nth_error_In _ _ Hk)) as (f & Hf & ->).
    unfold onViewer. destruct (viewer w) as [v0|] eqn:Hv; split; cbn.
    + intros r Hin; apply Hr, (In_dropNth k r), Hin.
    + intros v d E Hp. injection E as <-. cbn in Hp. injection Hp as <-.
      exists f. split; [exact Hf | reflexivity].
    + intros r Hin; apply Hr, (In_dropNth k r), Hin.
    + rewrite Hv. exact Hd.
  - destruct H as [Hr Hd]. split; cbn; [|exact Hd].
    intros r Hin. apply Hr, (In_dropNth k r), Hin.
Qed.

Lemma conversionsCurrent_run acts : forall w,
  forallb (fun a => negb (isNavigation a)) acts = true ->
  conversionsCurrent w -> conversionsCurrent (run w acts).
Proof.
  induction acts as [|a acts IH]; intros w Hall H; [exact H|].
  change (run w (a :: acts)) with (run (step w a) acts).
  cbn in Hall. apply andb_true_iff in Hall. destruct Hall as [Ha Hall].
  apply IH; [exact Hall|].
  apply conversionsCurrent_step; [|exact H].
  destruct (isNavigation a); [discriminate|reflexivity].
Qed.

Lemma conversionsCurrent_frame w :
  conversionsCurrent w -> frameShowsCurrent w.
Proof.
  intros [_ Hd] d t z Hrender.
  unfold render, SecurityLayer.render, DocumentViewer.render, renderContent,
    viewerState in Hrender.
  destruct (SecurityLayer.devToolsOpen (layer w)); [discriminate|].
  destruct (SecurityLayer.screenCaptureAttempt (layer w)); [discriminate|].
  destruct (viewer w) as [v|] eqn:Hv.
  - destruct (isBlurred v); [discriminate|].
    destruct (currentFile (files w) (currentFileIndex w)) as [f|];
      [|discriminate].
    destruct (startsWith (type f) "image/"); [discriminate|].
    destruct (String.eqb (type f) "application/pdf").
    + destruct (pdfData v) as [d'|] eqn:Hp; [|discriminate].
      injection Hrender as -> _ _. apply (Hd v d eq_refl Hp).
    + destruct (startsWith (type f) "text/"); discriminate.
  - cbn in Hrender.
    destruct (currentFile (files w) (currentFileIndex w)) as [f|];
      [|discriminate].
    destruct (startsWith (type f) "image/"); [discriminate|].
    destruct (String.eqb (type f) "application/pdf"); [discriminate|].
    destruct (startsWith (type f) "text/"); discriminate.
Qed.

(** As long as the user does not navigate, a frame on screen shows the
    data of the current document, whatever else happens: polls,
    obstructions and their dismissal (which restart the conversion), key
    presses, focus changes, zooming, finished and failed reads. *)
Theorem frame_current_without_navigation (n : Navigator)
    (fs : list UploadedFile) (i : Z) (acts : list Action)
    (Hacts : forallb (fun a => negb (isNavigation a)) acts = true) :
  frameShowsCurrent (run (start n fs i) acts).
Proof.
  apply conversionsCurrent_frame, conversionsCurrent_run; [exact Hacts|].
  apply conversionsCurrent_mount.
Qed.

Lemma frame_current_without_navigation_witness :
  frameShowsCurrent
    (run (start Sample.chrome Sample.twoPdfs 0)
         [RequestCapture; ClickContinue; ReadLoaded 0%nat; ClickZoomIn]).
Proof.
  apply (frame_current_without_navigation Sample.chrome Sample.twoPdfs 0).
  reflexivity.
Defined.

Lemma stalled_onViewer h w :
  (forall v, pdfData (h v) = pdfData v) ->
  stalled w -> stalled (onViewer h w).
Proof.
  intros Hh (Hc & Hr & v & Hv & Hp). unfold onViewer. rewrite Hv.
  split; [exact Hc|]. split; [exact Hr|].
  exists (h v). split; [reflexivity|]. rewrite Hh. exact Hp.
Qed.

Lemma stalled_step w a :
  staysOnDocument a = true -> stalled w ->
  stalled (step w a)
  /\ files (step w a) = files w
  /\ currentFileIndex (step w a) = currentFileIndex w.
Proof.
  intros Ha Hs.
  split; [|split; [apply files_step|]].
  - pose proof Hs as (Hc & Hr & v & Hv & Hp).
    destruct a; try discriminate Ha; cbn [step];
      try (apply stalled_onViewer; [intros [z b d]; reflexivity | exact Hs]).
    + cbn in Ha. apply negb_true_iff in Ha.
      assert (Hl : SecurityLayer.obstructs
                     (SecurityLayer.detectDevTools size (layer w)) = false).
      { unfold SecurityLayer.obstructs in *.
        rewrite detectDevTools_flag, detectDevTools_capture, Ha.
        apply orb_false_iff in Hc. destruct Hc as [_ ->]. reflexivity. }
      rewrite (reconcile_mounted _ v); [|exact Hv|exact Hl].
      split; [exact Hl|]. split; [exact Hr|]. exists v. split; assumption.
    + rewrite (dispatchKeyDown_mounted e w v Hv). cbn [snd].
      rewrite (reconcile_mounted w v Hv Hc). exact Hs.
    + unfold hasContinue, SecurityLayer.render.
      unfold SecurityLayer.obstructs in Hc. apply orb_false_iff in Hc.
      destruct Hc as [-> ->]. exact Hs.
    + rewrite Hr. destruct k; exact Hs.
    + assert (E : withReads (dropNth k (reads w)) w = w).
      { rewrite Hr. destruct w; cbn in *; subst. destruct k; reflexivity. }
      rewrite E. exact Hs.
  - destruct a; try discriminate Ha; cbn [step];
      rewrite ?index_reconcile, ?index_onViewer; try reflexivity.
    + unfold dispatchKeyDown.
      destruct (propagationStopped _); [reflexivity|].
      destruct (SecurityLayer.handleKeyDown _ _). reflexivity.
    + destruct (hasContinue w); [rewrite index_reconcile|]; reflexivity.
    + destruct (nth_error (reads w) k); [|reflexivity].
      cbn. apply index_onViewer.
Qed.

Lemma stalled_run acts : forall w,
  forallb staysOnDocument acts = true -> stalled w ->
  stalled (run w acts)
  /\ files (run w acts) = files w
  /\ currentFileIndex (run w acts) = currentFileIndex w.
Proof.
  induction acts as [|a acts IH]; intros w Hall Hs;
    [split; [exact Hs | split; reflexivity]|].
  change (run w (a :: acts)) with (run (step w a) acts).
  cbn in Hall. apply andb_true_iff in Hall. destruct Hall as [Ha Hall].
  destruct (stalled_step w a Ha Hs) as (Hs' & Hf & Hi).
  destruct (IH (step w a) Hall Hs') as (Hs'' & Hf' & Hi').
  split; [exact Hs''|]. split; congruence.
Qed.

(** A failed conversion is never retried and never reported.  When the
    session starts on a PDF and its read fails, the loading placeholder
    (or, while focus is lost, the protected block) stays on screen through
    every later event that neither navigates nor brings up an obstruction;
    no read is ever pending again. *)
Theorem failed_conversion_stalls (n : Navigator) (fs : list UploadedFile)
    (i : Z) (f : UploadedFile) (acts : list Action)
    (Hf : currentFile fs i = Some f)
    (Hpdf : type f = "application/pdf")
    (Hacts : forallb staysOnDocument acts = true) :
  let w := run (step (start n fs i) (ReadFailed 0%nat)) acts in
  reads w = []
  /\ (render w = SecurityLayer.Children (Shown LoadingPdf)
      \/ render w = SecurityLayer.Children ContentProtected).
Proof.
  intro w.
  assert (H0 : stalled (step (start n fs i) (ReadFailed 0%nat))).
  { unfold start, mountViewer, pdfEffect. cbn.
    rewrite Hf, Hpdf. cbn. repeat split. exists initial. split; reflexivity. }
  assert (Hfi : files (step (start n fs i) (ReadFailed 0%nat)) = fs
                /\ currentFileIndex (step (start n fs i) (ReadFailed 0%nat))
                   = i).
  { rewrite files_step, files_start. split; [reflexivity|].
    cbn [step withReads currentFileIndex]. apply index_start. }
  destruct (stalled_run acts _ Hacts H0) as ((Hc & Hr & v & Hv & Hp) & Hfs & Hi).
  fold w in Hc, Hr, Hv, Hfs, Hi.
  split; [exact Hr|].
  unfold render, SecurityLayer.render, DocumentViewer.render, renderContent,
    viewerState.
  unfold SecurityLayer.obstructs in Hc. apply orb_false_iff in Hc.
  destruct Hc as [-> ->]. rewrite Hv.
  destruct (isBlurred v); [right; reflexivity|]. left.
  rewrite Hfs, Hi. destruct Hfi as [-> ->]. rewrite Hf, Hpdf, Hp.
  reflexivity.
Qed.

Lemma failed_conversion_stalls_witness :
  render (run (step (start Sample.chrome Sample.twoPdfs 0)
                    (ReadFailed 0%nat))
              [ClickZoomIn; Poll Sample.plain; WindowBlur; WindowFocus;
               PressKey Sample.key_F5])
  = SecurityLayer.Children (Shown LoadingPdf).
Proof.
  destruct (failed_conversion_stalls Sample.chrome Sample.twoPdfs 0
              Sample.b_pdf
              [ClickZoomIn; Poll Sample.plain; WindowBlur; WindowFocus;
               PressKey Sample.key_F5]
              eq_refl eq_refl eq_refl) as [_ [H|H]].
  - exact H.
  - discriminate H.
Defined.

(** ** The capture obstruction *)

Lemma captureAttempt_handleKeyDown e w :
  SecurityLayer.screenCaptureAttempt (layer (snd (dispatchKeyDown e w)))
  = SecurityLayer.screenCaptureAttempt (layer w).
Proof.
  destruct (layer_dispatchKeyDown e w) as [-> | ->]; reflexivity.
Qed.

(** Once a capture attempt is recorded it stays recorded until the user
    clicks Continue, and the button is only there while [devToolsOpen] is
    down: no poll, key press, focus change, navigation or further capture
    request lowers the flag.  A poll that finds no size excess therefore
    leaves the capture obstruction on screen. *)
Theorem capture_flag_sticky (w : World) (a : Action)
    (Hon : SecurityLayer.screenCaptureAttempt (layer w) = true) :
  (SecurityLayer.screenCaptureAttempt (layer (step w a)) = false ->
   a = ClickContinue /\ SecurityLayer.devToolsOpen (layer w) = false)
  /\ (forall size,
        a = Poll size ->
        SecurityLayer.widthThreshold size = false ->
        SecurityLayer.heightThreshold size = false ->
        render (step w a) = SecurityLayer.ScreenCaptureBlocked).
Proof.
  split.
  - intro Hoff. destruct a; cbn [step] in Hoff;
      rewrite ?layer_reconcile, ?layer_onViewer in Hoff;
      cbn [layer withLayer] in Hoff.
    + rewrite detectDevTools_capture in Hoff. congruence.
    + rewrite captureAttempt_handleKeyDown in Hoff. congruence.
    + unfold SecurityLayer.callGetDisplayMedia in Hoff.
      destruct (mediaDevices (navigator w)) as [md|]; [|cbn in Hoff; congruence].
      destruct (getDisplayMedia md) as [[|]|]; cbn in Hoff; congruence.
    + split; [reflexivity|].
      unfold hasContinue, SecurityLayer.render in Hoff.
      destruct (SecurityLayer.devToolsOpen (layer w)); [|reflexivity].
      cbn in Hoff. congruence.
    + congruence.
    + congruence.
    + congruence.
    + congruence.
    + congruence.
    + destruct (viewer w), (nextFile (files w) (currentFileIndex w));
        rewrite ?layer_onFileChange in Hoff; congruence.
    + destruct (viewer w), (prevFile (currentFileIndex w));
        rewrite ?layer_onFileChange in Hoff; congruence.
    + destruct (nth_error (reads w) k); [|congruence].
      cbn [layer withReads] in Hoff. rewrite layer_onViewer in Hoff.
      congruence.
    + cbn in Hoff. congruence.
  - intros size -> Hw Hh.
    unfold render, SecurityLayer.render.
    rewrite layer_poll, detectDevTools_flag, detectDevTools_capture.
    rewrite Hw, Hh, Hon. reflexivity.
Qed.

Lemma capture_flag_sticky_witness :
  render (step (step Sample.viewing RequestCapture) (Poll Sample.plain))
  = SecurityLayer.ScreenCaptureBlocked.
Proof.
  apply (proj2 (capture_flag_sticky (step Sample.viewing RequestCapture)
                  (Poll Sample.plain) eq_refl) Sample.plain);
    reflexivity.
Defined.

(** A viewer that comes back after an obstruction is a new one: its zoom
    is 100 again, it is not blurred, it has no converted data, and the
    only read running is a fresh one for the current document if that is
    a PDF. *)
Theorem obstruction_resets_viewer (w : World) (a : Action) (v' : State)
    (Hgone : viewer w = None) (Hback : viewer (step w a) = Some v') :
  v' = initial
  /\ reads (step w a)
     = match currentFile (files w) (currentFileIndex w) with
       | Some f =>
           if String.eqb (type f) "application/pdf" then [file f] else []
       | None => []
       end.
Proof.
  assert (Hmount : forall w0,
            viewer w0 = None -> viewer (reconcile w0) = Some v' ->
            v' = initial
            /\ reads (reconcile w0)
               = match currentFile (files w0) (currentFileIndex w0) with
                 | Some f =>
                     if String.eqb (type f) "application/pdf"
                     then [file f] else []
                 | None => []
                 end).
  { intros w0 H0. unfold reconcile.
    destruct (SecurityLayer.obstructs (layer w0)); [discriminate|].
    rewrite H0. unfold mountViewer, pdfEffect, onViewer. cbn.
    destruct (currentFile (files w0) (currentFileIndex w0)) as [f|];
      [destruct (String.eqb (type f) "application/pdf")|]; cbn;
      intro E; injection E as <-; split; reflexivity. }
  destruct a; cbn [step] in *;
    try (unfold onViewer in Hback; rewrite Hgone in Hback; congruence).
  - exact (Hmount (withLayer _ w) Hgone Hback).
  - assert (E : dispatchKeyDown e w
                = (fst (dispatchKeyDown e w),
                   withLayer (layer (snd (dispatchKeyDown e w))) w)).
    { unfold dispatchKeyDown. rewrite Hgone. cbn.
      destruct (SecurityLayer.handleKeyDown e (untouched, layer w)).
      reflexivity. }
    rewrite E in *. cbn [snd] in *.
    exact (Hmount (withLayer _ w) Hgone Hback).
  - exact (Hmount (withLayer _ w) Hgone Hback).
  - destruct (hasContinue w); [|congruence].
    exact (Hmount (withLayer _ w) Hgone Hback).
  - destruct (nth_error (reads w) k); [|congruence].
    cbn in Hback. unfold onViewer in Hback. rewrite Hgone in Hback.
    congruence.
  - cbn in Hback. congruence.
Qed.

Lemma obstruction_resets_viewer_witness :
  reads (step (run Sample.viewing [ClickNext; ClickZoomIn; RequestCapture])
              ClickContinue)
  = [file Sample.b_pdf].
Proof.
  exact (proj2 (obstruction_resets_viewer
                  (run Sample.viewing [ClickNext; ClickZoomIn; RequestCapture])
                  ClickContinue initial eq_refl eq_refl)).
Defined.


(** ** Clipboard and drag events *)

(** Each of the eight clipboard and drag events is cancelled by the
    layer's listener on [document] and stopped there, so no listener
    further up sees it. *)
Theorem clipboard_and_drag_stopped (ty : EventType)
    (H : clipboardOrDrag ty = true) :
  blockersAt Window ty = []
  /\ dispatch ty = mkFlags true true.
Proof. destruct ty; try discriminate H; split; reflexivity. Qed.

Lemma clipboard_and_drag_stopped_witness :
  dispatch Cut = mkFlags true true.
Proof. apply (clipboard_and_drag_stopped Cut). reflexivity. Defined.

(** ** Setup and cleanup *)

Section Registry.

Import Lifecycle.
#[local] Open Scope list_scope.

Lemma addEventListener_new l ls :
  ~ In l ls -> addEventListener l ls = ls ++ [l].
Proof.
  intro H. unfold addEventListener.
  destruct (in_dec Listener_eq_dec l ls); [contradiction|reflexivity].
Qed.

Lemma removeEventListener_middle l rest : forall ls,
  ~ In l ls -> removeEventListener l (ls ++ l :: rest) = ls ++ rest.
Proof.
  induction ls as [|x ls IH]; intro H; cbn.
  - destruct (Listener_eq_dec l l); [reflexivity|contradiction].
  - destruct (Listener_eq_dec l x) as [->|_].
    + exfalso. apply H. left. reflexivity.
    + rewrite IH; [reflexivity|]. intro Hin. apply H. right. exact Hin.
Qed.

Lemma addAll_new xs : forall ls,
  NoDup xs -> (forall x, In x xs -> ~ In x ls) ->
  addAll xs ls = ls ++ xs.
Proof.
  induction xs as [|x xs IH]; intros ls Hnd Hnew; cbn.
  - rewrite app_nil_r. reflexivity.
  - inversion Hnd as [|? ? Hx Hnd']; subst.
    rewrite addEventListener_new by (apply Hnew; left; reflexivity).
    unfold addAll in IH. rewrite IH; [rewrite <- app_assoc; reflexivity
                                     | exact Hnd' |].
    intros y Hy Hin. apply in_app_or in Hin. destruct Hin as [Hin|[->|[]]].
    + apply (Hnew y); [right; exact Hy | exact Hin].
    + contradiction.
Qed.

Lemma removeAll_added xs : forall ls,
  (forall x, In x xs -> ~ In x ls) -> removeAll xs (ls ++ xs) = ls.
Proof.
  induction xs as [|x xs IH]; intros ls Hnew; cbn.
  - apply app_nil_r.
  - rewrite removeEventListener_middle by (apply Hnew; left; reflexivity).
    apply IH. intros y Hy. apply Hnew. right. exact Hy.
Qed.

Lemma listeners_fold_add {A : Type} (f : A -> Listener) (bs : list A) :
  forall p,
    fold_left (fun q b => add (f b) q) bs p
    = withListeners (addAll (map f bs) (listeners p)) p.
Proof.
  induction bs as [|b bs IH]; intro p; cbn.
  - destruct p; reflexivity.
  - rewrite IH. reflexivity.
Qed.

Lemma listeners_fold_remove {A : Type} (f : A -> Listener) (bs : list A) :
  forall p,
    fold_left (fun q b => remove (f b) q) bs p
    = withListeners (removeAll (map f bs) (listeners p)) p.
Proof.
  induction bs as [|b bs IH]; intro p; cbn.
  - destruct p; reflexivity.
  - rewrite IH. reflexivity.
Qed.

Lemma filter_all {A : Type} (f : A -> bool) (l : list A) :
  (forall x, In x l -> f x = true) -> filter f l = l.
Proof.
  induction l as [|x l IH]; intro H; cbn; [reflexivity|].
  rewrite (H x (or_introl eq_refl)), IH; [reflexivity|].
  intros y Hy. apply H. right. exact Hy.
Qed.

Lemma filter_not_owner k (os : list nat) :
  ~ In k os -> filter (fun o => negb (Nat.eqb o k)) os = os.
Proof.
  intro H. apply filter_all. intros x Hx.
  apply negb_true_iff, Nat.eqb_neq. intros ->. contradiction.
Qed.

Lemma NoDup_by {A B : Type} (f : A -> B) (l : list A) :
  NoDup (map f l) -> NoDup l.
Proof.
  induction l as [|x l IH]; cbn; intro H; [constructor|].
  inversion H as [|? ? Hx Hnd]; subst. constructor; [|apply IH, Hnd].
  intro Hin. apply Hx, in_map, Hin.
Qed.

Ltac nodup_concrete :=
  repeat (constructor; [cbn; intuition discriminate|]); constructor.


Lemma viewerListeners_NoDup k : NoDup (viewerListeners k).
Proof.
  apply (NoDup_by (fun l => (event l, callback l))). cbn. nodup_concrete.
Qed.


Lemma viewerListeners_owner k l : In l (viewerListeners k) -> owner l = k.
Proof.
  cbn. intro H. repeat (destruct H as [<-|H]; [reflexivity|]). destruct H.
Qed.








(** Unmounting the viewer removes the five listeners and the style
    element its effects added, the capturing [keydown] listener included,
    and leaves everything else on the page as it was. *)
Theorem viewer_cleanup_releases (k : nat) (p : Page) (Hf : fresh k p) :
  listeners (viewerSetup k p) = listeners p ++ viewerListeners k
  /\ headStyles (viewerSetup k p) = headStyles p ++ [k]
  /\ viewerCleanup k (viewerSetup k p) = p.
Proof.
  destruct p as [ls ivs nt nv obs hs].
  destruct Hf as (Hl & Ht & Ho & Hs).
  change (forall l, In l ls -> owner l <> k) in Hl.
  change (~ In k hs) in Hs.
  assert (Hnew : forall x, In x (viewerListeners k) -> ~ In x ls).
  { intros x Hx Hin. apply (Hl x Hin), viewerListeners_owner, Hx. }
  assert (Hadd : addAll (viewerListeners k) ls = ls ++ viewerListeners k).
  { apply addAll_new; [apply viewerListeners_NoDup | exact Hnew]. }
  assert (Hrem : removeAll (viewerRemoved k) (ls ++ viewerListeners k) = ls).
  { apply (removeAll_added (viewerListeners k)), Hnew. }
  assert (Hsetup : viewerSetup k (mkPage ls ivs nt nv obs hs)
                   = mkPage (ls ++ viewerListeners k) ivs nt nv obs
                            (hs ++ [k])).
  { unfold viewerSetup.
    rewrite (listeners_fold_add (fun l => l)), map_id.
    unfold withListeners.
    change (listeners (mkPage ls ivs nt nv obs hs)) with ls.
    rewrite Hadd. reflexivity. }
  rewrite Hsetup.
  split; [reflexivity|]. split; [reflexivity|].
  unfold viewerCleanup.
  rewrite (listeners_fold_remove (fun l => l)), map_id.
  unfold withListeners.
  change (listeners (mkPage (ls ++ viewerListeners k) ivs nt nv obs
                            (hs ++ [k])))
    with (ls ++ viewerListeners k).
  rewrite Hrem.
  lazy beta iota zeta delta [listeners intervals nextTimerId
    Lifecycle.navigator observers headStyles].
  rewrite filter_app. cbn [filter]. rewrite Nat.eqb_refl.
  cbn [negb]. rewrite app_nil_r, (filter_not_owner k _ Hs).
  reflexivity.
Qed.

Lemma viewer_cleanup_releases_witness :
  viewerCleanup 2 (viewerSetup 2 (mkPage [] [] 0 Sample.chrome [] []))
  = mkPage [] [] 0 Sample.chrome [] [].
Proof.
  assert (Hf : fresh 2 (mkPage [] [] 0 Sample.chrome [] [])).
  { split; [intros l []|]. split; [intros t []|]. split; intros []. }
  exact (proj2 (proj2 (viewer_cleanup_releases 2 _ Hf))).
Defined.

End Registry.

(** ** The list of uploaded files *)

Section UploadedFiles.

#[local] Open Scope list_scope.

Lemma ids_setProgress fid p l :
  map Index.id (Index.setProgress fid p l) = map Index.id l.
Proof.
  unfold Index.setProgress. rewrite map_map. apply map_ext.
  intro f. destruct (String.eqb (Index.id f) fid); reflexivity.
Qed.

Lemma NoDup_ids_filter (g : Index.UploadedFile -> bool) l :
  NoDup (map Index.id l) -> NoDup (map Index.id (filter g l)).
Proof.
  induction l as [|f l IH]; cbn; intro H; [constructor|].
  inversion H as [|? ? Hf Hl]; subst.
  destruct (g f); [|apply IH, Hl].
  cbn. constructor; [|apply IH, Hl].
  intro Hin. apply Hf. apply in_map_iff in Hin.
  destruct Hin as (x & Hx & Hin). apply filter_In in Hin.
  apply in_map_iff. exists x. split; [exact Hx | apply Hin].
Qed.

Lemma id_not_in_filtered fid l :
  ~ In fid
      (map Index.id
         (filter (fun f => negb (String.eqb (Index.id f) fid)) l)).
Proof.
  intro Hin. apply in_map_iff in Hin. destruct Hin as (x & Hx & Hin).
  apply filter_In in Hin. destruct Hin as [_ Hne].
  apply negb_true_iff, String.eqb_neq in Hne. contradiction.
Qed.

(** File ids stay pairwise distinct under the three updaters of the
    file list: an upload replaces a listed file that has the same id,
    progress updates keep the ids as they are, and a removal only drops
    entries. *)
Theorem file_ids_stay_distinct (l : list Index.UploadedFile)
    (Hl : NoDup (map Index.id l)) :
  (forall new, NoDup (map Index.id (Index.addFile new l)))
  /\ (forall fid p, NoDup (map Index.id (Index.setProgress fid p l)))
  /\ (forall fid, NoDup (map Index.id (snd (Index.removeFile fid l)))).
Proof.
  split; [|split].
  - intro new. unfold Index.addFile. rewrite map_app. cbn.
    apply NoDup_app.
    + apply NoDup_ids_filter, Hl.
    + constructor; [intros []|constructor].
    + intros x Hx [<-|[]]. exact (id_not_in_filtered _ _ Hx).
  - intros fid p. rewrite ids_setProgress. exact Hl.
  - intro fid. apply NoDup_ids_filter, Hl.
Qed.

Lemma setProgress_overwrites fid p q l :
  Index.setProgress fid q (Index.setProgress fid p l)
  = Index.setProgress fid q l.
Proof.
  unfold Index.setProgress. rewrite map_map. apply map_ext. intro f.
  destruct (String.eqb (Index.id f) fid) eqn:E; cbn; rewrite E; reflexivity.
Qed.

Lemma setProgress_absent fid p l :
  ~ In fid (map Index.id l) -> Index.setProgress fid p l = l.
Proof.
  intro H. unfold Index.setProgress.
  rewrite <- (map_id l) at 2. apply map_ext_in. intros f Hin.
  destruct (String.eqb_spec (Index.id f) fid) as [E|_]; [|reflexivity].
  exfalso. apply H. rewrite <- E. apply in_map, Hin.
Qed.

Lemma progressLoop_full fid st :
  Index.progressLoop 12 fid 0 st = Index.setProgress fid 100 st.
Proof.
  cbn [Index.progressLoop Z.leb Z.compare Z.add Pos.compare Pos.compare_cont
       Pos.add Pos.succ Pos.add_carry].
  rewrite !setProgress_overwrites. reflexivity.
Qed.

Lemma progressLoop_more_fuel extra fid st :
  Index.progressLoop (12 + extra) fid 0 st = Index.progressLoop 12 fid 0 st.
Proof.
  cbn [Index.progressLoop Z.leb Z.compare Z.add Pos.compare Pos.compare_cont
       Pos.add Pos.succ Pos.add_carry Nat.add].
  destruct extra; reflexivity.
Qed.

(** An upload that runs to its end leaves the new file at the end of the
    list with progress 100, drops an older entry with the same id, and
    keeps every other file as it was, in order.  Twelve iterations of the
    loop are enough, and more change nothing. *)
Theorem upload_completes (new : Index.UploadedFile)
    (prev : list Index.UploadedFile) (extra : nat) :
  Index.upload (12 + extra) new prev
  = filter (fun f => negb (String.eqb (Index.id f) (Index.id new))) prev
    ++ [Index.withProgress 100 new].
Proof.
  unfold Index.upload. rewrite progressLoop_more_fuel, progressLoop_full.
  unfold Index.addFile, Index.setProgress. rewrite map_app. cbn [map].
  rewrite String.eqb_refl. f_equal.
  rewrite <- (map_id (filter _ prev)) at 2. apply map_ext_in.
  intros f Hin. apply filter_In in Hin. destruct Hin as [_ Hne].
  apply negb_true_iff in Hne. rewrite Hne. reflexivity.
Qed.

(** Removing a file: when no listed file has the id, nothing is revoked
    and the list is unchanged; when one has, its URL is revoked and no
    entry with that id remains.  A file removed while its upload is still
    running does not come back: the remaining progress updates find
    nothing to update.  Removing a file right after adding it under a new
    id gives the previous list back. *)
Theorem removeFile_behaviour (fid : string) (l : list Index.UploadedFile) :
  (~ In fid (map Index.id l) -> Index.removeFile fid l = (None, l))
  /\ (In fid (map Index.id l) ->
      exists f, In f l /\ Index.id f = fid
                /\ fst (Index.removeFile fid l) = Some (Index.url f))
  /\ ~ In fid (map Index.id (snd (Index.removeFile fid l)))
  /\ (forall p,
        Index.setProgress fid p (snd (Index.removeFile fid l))
        = snd (Index.removeFile fid l))
  /\ (forall new,
        Index.id new = fid -> ~ In fid (map Index.id l) ->
        snd (Index.removeFile fid (Index.addFile new l)) = l).
Proof.
  assert (Hkeep : ~ In fid (map Index.id l) ->
                  filter (fun f => negb (String.eqb (Index.id f) fid)) l = l).
  { intro H. apply filter_all. intros f Hin.
    apply negb_true_iff, String.eqb_neq. intros E. apply H.
    rewrite <- E. apply in_map, Hin. }
  split; [|split; [|split; [|split]]].
  - intro H. unfold Index.removeFile. rewrite (Hkeep H). f_equal.
    destruct (find _ l) as [f|] eqn:Hfind; [|reflexivity].
    apply find_some in Hfind. destruct Hfind as [Hin E].
    apply String.eqb_eq in E. exfalso. apply H. rewrite <- E.
    apply in_map, Hin.
  - intro H. apply in_map_iff in H. destruct H as (f0 & E0 & Hin0).
    unfold Index.removeFile. cbn [fst].
    destruct (find (fun f => String.eqb (Index.id f) fid) l) as [f|] eqn:Hfind.
    + apply find_some in Hfind. destruct Hfind as [Hin E].
      apply String.eqb_eq in E. exists f. repeat split; assumption.
    + exfalso. pose proof (find_none _ _ Hfind f0 Hin0) as Hn.
      cbn in Hn. rewrite E0, String.eqb_refl in Hn. discriminate.
  - apply id_not_in_filtered.
  - intro p. apply setProgress_absent, id_not_in_filtered.
  - intros new <- H. unfold Index.removeFile, Index.addFile. cbn [snd].
    rewrite filter_app. cbn [filter]. rewrite String.eqb_refl. cbn [negb].
    rewrite app_nil_r. rewrite (Hkeep H). apply (Hkeep H).
Qed.

Lemma removeFile_behaviour_witness :
  Index.removeFile "f9"
    [Index.mkUploaded "f0" 0%nat "a.png" "1 KB" "image/png" "blob:a" 100]
  = (None,
     [Index.mkUploaded "f0" 0%nat "a.png" "1 KB" "image/png" "blob:a" 100]).
Proof.
  apply (proj1 (removeFile_behaviour "f9" _)).
  cbn. intros [H|[]]. discriminate H.
Defined.

Lemma file_ids_stay_distinct_witness :
  NoDup (map Index.id
           (Index.addFile
              (Index.mkUploaded "f0" 1%nat "b.pdf" "2 KB" "application/pdf"
                                "blob:b" 0)
              [Index.mkUploaded "f0" 0%nat "a.png" "1 KB" "image/png"
                                "blob:a" 100])).
Proof.
  apply (file_ids_stay_distinct
           [Index.mkUploaded "f0" 0%nat "a.png" "1 KB" "image/png"
                             "blob:a" 100]).
  cbn. constructor; [intros []|constructor].
Defined.

Lemma length_filter_removed fid l :
  In fid (map Index.id l) ->
  (List.length (filter (fun f => negb (String.eqb (Index.id f) fid)) l)
   < List.length l)%nat.
Proof.
  induction l as [|f l IH]; cbn; [intros []|].
  intros [E|Hin].
  - rewrite E, String.eqb_refl. cbn.
    pose proof (filter_length_le
                  (fun f => negb (String.eqb (Index.id f) fid)) l). lia.
  - specialize (IH Hin).
    destruct (negb (String.eqb (Index.id f) fid)); cbn; lia.
Qed.

Lemma openViewer_no_file n s :
  currentFile (map Index.toViewer (Index.files s)) (Index.currentFileIndex s)
  = None ->
  Index.openViewer n s
  = mkWorld (fst (SecurityLayer.detectScreenCapture n))
            (map Index.toViewer (Index.files s)) (Index.currentFileIndex s)
            SecurityLayer.initial (Some initial) []
  /\ render (Index.openViewer n s) = SecurityLayer.Children (Shown Nothing).
Proof.
  intro Hnone.
  assert (E : Index.openViewer n s
              = mkWorld (fst (SecurityLayer.detectScreenCapture n))
                  (map Index.toViewer (Index.files s))
                  (Index.currentFileIndex s)
                  SecurityLayer.initial (Some initial) []).
  { unfold Index.openViewer, start, mountViewer, pdfEffect.
    cbn [files currentFileIndex withReads withViewer].
    rewrite Hnone. reflexivity. }
  split; [exact E|]. rewrite E.
  unfold render, SecurityLayer.render, DocumentViewer.render,
    renderContent, viewerState.
  cbn [layer viewer files currentFileIndex SecurityLayer.devToolsOpen
       SecurityLayer.screenCaptureAttempt SecurityLayer.initial initial
       isBlurred].
  rewrite Hnone. reflexivity.
Qed.

Lemma openViewer_past_end n s :
  Z.of_nat (List.length (Index.files s)) <= Index.currentFileIndex s ->
  render (Index.openViewer n s) = SecurityLayer.Children (Shown Nothing)
  /\ step (Index.openViewer n s) ClickNext = Index.openViewer n s.
Proof.
  intro Hlen.
  assert (Hnone : currentFile (map Index.toViewer (Index.files s))
                    (Index.currentFileIndex s) = None).
  { unfold currentFile.
    destruct (Z.ltb_spec (Index.currentFileIndex s) 0); [reflexivity|].
    apply nth_error_None. rewrite length_map. lia. }
  destruct (openViewer_no_file n s Hnone) as [E Hr].
  split; [exact Hr|]. rewrite E.
  cbn [step viewer files currentFileIndex]. unfold nextFile.
  rewrite length_map.
  destruct (Z.ltb_spec (Index.currentFileIndex s)
              (Z.of_nat (List.length (Index.files s)) - 1));
    [lia|reflexivity].
Qed.

(** The page never brings [currentFileIndex] back into range.  If the
    user has navigated to the last document, closes the viewer, removes
    any file and processes what is left, the viewer opens on an index past
    the end of the list: it shows neither a document nor a placeholder,
    and the forward button does nothing. *)
Theorem removal_leaves_index_dangling (n : Navigator) (s : Index.State)
    (fid : string)
    (Hlast : Index.currentFileIndex s
             = Z.of_nat (List.length (Index.files s)) - 1)
    (Hfid : In fid (map Index.id (Index.files s)))
    (Hrest : snd (Index.removeFile fid (Index.files s)) <> []) :
  let clicked := Index.processFiles (Index.onRemove fid (Index.onClose s)) in
  let s' := Index.processDone clicked in
  Index.isProcessing clicked = true
  /\ Index.isFullscreen s' = true
  /\ Index.currentFileIndex s' = Index.currentFileIndex s
  /\ Z.of_nat (List.length (Index.files s')) <= Index.currentFileIndex s'
  /\ render (Index.openViewer n s')
     = SecurityLayer.Children (Shown Nothing)
  /\ step (Index.openViewer n s') ClickNext = Index.openViewer n s'.
Proof.
  intros clicked s'.
  assert (Hclicked : clicked
                     = Index.mkState
                         (snd (Index.removeFile fid (Index.files s)))
                         true false (Index.currentFileIndex s)).
  { subst clicked. unfold Index.processFiles, Index.onRemove, Index.onClose.
    cbn [Index.files Index.isProcessing Index.isFullscreen
         Index.currentFileIndex].
    destruct (snd (Index.removeFile fid (Index.files s))) eqn:E;
      [contradiction|]. reflexivity. }
  assert (Hlen : Z.of_nat (List.length (Index.files s'))
                 <= Index.currentFileIndex s').
  { subst s'. rewrite Hclicked. cbn [Index.processDone Index.files
      Index.currentFileIndex snd Index.removeFile]. rewrite Hlast.
    pose proof (length_filter_removed fid (Index.files s) Hfid). lia. }
  split; [rewrite Hclicked; reflexivity|].
  split; [reflexivity|].
  split; [subst s'; rewrite Hclicked; reflexivity|].
  split; [exact Hlen|].
  apply openViewer_past_end, Hlen.
Qed.

Lemma removal_leaves_index_dangling_witness :
  render
    (Index.openViewer Sample.chrome
       (Index.processDone
          (Index.processFiles
             (Index.onRemove "f0"
                (Index.onClose
                   (Index.mkState
                      [Index.mkUploaded "f0" 0%nat "a.png" "1 KB"
                                        "image/png" "blob:a" 100;
                       Index.mkUploaded "f1" 1%nat "b.pdf" "2 KB"
                                        "application/pdf" "blob:b" 100]
                      false true 1))))))
  = SecurityLayer.Children (Shown Nothing).
Proof.
  refine (proj1 (proj2 (proj2 (proj2 (proj2
           (removal_leaves_index_dangling Sample.chrome
              (Index.mkState
                 [Index.mkUploaded "f0" 0%nat "a.png" "1 KB"
                                   "image/png" "blob:a" 100;
                  Index.mkUploaded "f1" 1%nat "b.pdf" "2 KB"
                                   "application/pdf" "blob:b" 100]
                 false true 1)
              "f0" eq_refl _ _)))))).
  - left. reflexivity.
  - discriminate.
Defined.

(** [processFiles] refuses an empty list only at the moment of the click:
    with no files it changes nothing, but files removed while the
    processing delay runs are not looked at again, so the viewer can open
    on an empty list, where it shows nothing. *)
Theorem processFiles_checks_once (n : Navigator) (s : Index.State) :
  (Index.files s = [] -> Index.processFiles s = s)
  /\ (Index.files s <> [] ->
      forall fids,
        let s' := Index.processDone
                    (fold_left (fun q fid => Index.onRemove fid q) fids
                               (Index.processFiles s)) in
        Index.isProcessing (Index.processFiles s) = true
        /\ Index.isFullscreen s' = true
        /\ (Index.files s' = [] ->
            render (Index.openViewer n s')
            = SecurityLayer.Children (Shown Nothing))).
Proof.
  split.
  - intro H. unfold Index.processFiles. rewrite H. reflexivity.
  - intros H fids s'. split; [|split; [reflexivity|]].
    + unfold Index.processFiles.
      destruct (Index.files s); [contradiction|reflexivity].
    + intros He. apply openViewer_no_file. rewrite He.
      unfold currentFile. destruct (_ <? 0); [reflexivity|].
      destruct (Z.to_nat _); reflexivity.
Qed.

Lemma processFiles_checks_once_witness :
  Index.processFiles Index.initial = Index.initial
  /\ Index.isFullscreen
       (Index.processDone
          (fold_left (fun q fid => Index.onRemove fid q) ["f0"]
             (Index.processFiles
                (Index.mkState
                   [Index.mkUploaded "f0" 0%nat "a.png" "1 KB"
                                     "image/png" "blob:a" 100]
                   false false 0))))
     = true.
Proof.
  split.
  - apply (proj1 (processFiles_checks_once Sample.chrome Index.initial)).
    reflexivity.
  - apply (proj2 (processFiles_checks_once Sample.chrome
                    (Index.mkState
                       [Index.mkUploaded "f0" 0%nat "a.png" "1 KB"
                                         "image/png" "blob:a" 100]
                       false false 0))
             ltac:(discriminate) ["f0"]).
Defined.

End UploadedFiles.
